(** * gym-clock: the workout-timer reducer of [src/hooks/useTimer.ts]

    A shallow embedding of [timerReducer] (the version with the countdown
    intro) together with the types of [src/types], and the properties of the
    reducer stated over it.

    Numbers.  Every [number] of the state is a count of seconds, of
    milliseconds, of rounds or of minutes; the driver's delta is a difference
    of two [Date.now()] readings.  They are modelled as [Z].  On integers
    below 2^53 the JavaScript operators used by the reducer are exact:
    [+], [-], [*] are the integer operations, [a % b] is the truncating
    remainder [Z.rem a b], and [Math.floor(a / b)] is the floor quotient
    [a / b] of [Z] whenever [b <> 0].  The only division whose divisor is not
    a constant is the one by Tabata's [cycleTime].  For [cycleTime = 0] the
    source produces [NaN] or an infinity, which [Z] does not have: there the
    model is not the source, and the statements below about the values a
    Tick computes in Tabata mode assume the work and rest times positive. *)

From Stdlib Require Import ZArith Bool List Lia.
From Stdlib Require Import Ascii String.
From Stdlib Require DecimalString.
Import ListNotations.
Local Open Scope Z_scope.

(** ** Types ([src/types]) *)

Module Mode.

Inductive TimerMode : Set :=
  | clock | stopwatch | countdown | tabata | emom | amrap.

Definition eqb (a b : TimerMode) : bool :=
  match a, b with
  | clock, clock | stopwatch, stopwatch | countdown, countdown
  | tabata, tabata | emom, emom | amrap, amrap => true
  | _, _ => false
  end.

End Mode.

Abbreviation TimerMode := Mode.TimerMode.

Record TabataSettings : Set := {
  workTime : Z;   (* seconds *)
  restTime : Z;   (* seconds *)
  rounds : Z
}.

Record EmomSettings : Set := {
  intervalTime : Z;   (* seconds per minute (usually 60) *)
  totalMinutes : Z
}.

Module Amrap.
Record Settings : Set := { totalTime : Z (* seconds *) }.
End Amrap.

Module Countdown.
Record Settings : Set := { totalTime : Z (* seconds *) }.
End Countdown.

Abbreviation AmrapSettings := Amrap.Settings.
Abbreviation CountdownSettings := Countdown.Settings.

Record TimerState : Set := {
  mode : TimerMode;
  isRunning : bool;
  currentTime : Z;               (* milliseconds *)
  countdown : CountdownSettings;
  tabata : TabataSettings;
  emom : EmomSettings;
  amrap : AmrapSettings;
  currentRound : Z;
  isWorkPhase : bool;
  currentMinute : Z;
  countdownIntro : Z;            (* seconds, 0 = disabled *)
  isInCountdownIntro : bool;
  introTimeRemaining : Z         (* milliseconds *)
}.

Inductive TimerAction : Set :=
  | SET_MODE (mode : TimerMode)
  | START
  | STOP
  | RESET
  | TICK (delta : Z)
  | SET_COUNTDOWN (settings : CountdownSettings)
  | SET_TABATA (settings : TabataSettings)
  | SET_EMOM (settings : EmomSettings)
  | SET_AMRAP (settings : AmrapSettings)
  | SET_COUNTDOWN_INTRO (seconds : Z).

(** ** Object spread

    [{ ...state, f: v }] copies every field of [state] and replaces [f].
    One function per field; [state <| f := v |>] is the spread. *)

Definition with_mode (v : TimerMode) (s : TimerState) : TimerState :=
  Build_TimerState v (isRunning s) (currentTime s) (countdown s) (tabata s)
    (emom s) (amrap s) (currentRound s) (isWorkPhase s) (currentMinute s)
    (countdownIntro s) (isInCountdownIntro s) (introTimeRemaining s).

Definition with_isRunning (v : bool) (s : TimerState) : TimerState :=
  Build_TimerState (mode s) v (currentTime s) (countdown s) (tabata s)
    (emom s) (amrap s) (currentRound s) (isWorkPhase s) (currentMinute s)
    (countdownIntro s) (isInCountdownIntro s) (introTimeRemaining s).

Definition with_currentTime (v : Z) (s : TimerState) : TimerState :=
  Build_TimerState (mode s) (isRunning s) v (countdown s) (tabata s)
    (emom s) (amrap s) (currentRound s) (isWorkPhase s) (currentMinute s)
    (countdownIntro s) (isInCountdownIntro s) (introTimeRemaining s).

Definition with_countdown (v : CountdownSettings) (s : TimerState) : TimerState :=
  Build_TimerState (mode s) (isRunning s) (currentTime s) v (tabata s)
    (emom s) (amrap s) (currentRound s) (isWorkPhase s) (currentMinute s)
    (countdownIntro s) (isInCountdownIntro s) (introTimeRemaining s).

Definition with_tabata (v : TabataSettings) (s : TimerState) : TimerState :=
  Build_TimerState (mode s) (isRunning s) (currentTime s) (countdown s) v
    (emom s) (amrap s) (currentRound s) (isWorkPhase s) (currentMinute s)
    (countdownIntro s) (isInCountdownIntro s) (introTimeRemaining s).

Definition with_emom (v : EmomSettings) (s : TimerState) : TimerState :=
  Build_TimerState (mode s) (isRunning s) (currentTime s) (countdown s)
    (tabata s) v (amrap s) (currentRound s) (isWorkPhase s) (currentMinute s)
    (countdownIntro s) (isInCountdownIntro s) (introTimeRemaining s).

Definition with_amrap (v : AmrapSettings) (s : TimerState) : TimerState :=
  Build_TimerState (mode s) (isRunning s) (currentTime s) (countdown s)
    (tabata s) (emom s) v (currentRound s) (isWorkPhase s) (currentMinute s)
    (countdownIntro s) (isInCountdownIntro s) (introTimeRemaining s).

Definition with_currentRound (v : Z) (s : TimerState) : TimerState :=
  Build_TimerState (mode s) (isRunning s) (currentTime s) (countdown s)
    (tabata s) (emom s) (amrap s) v (isWorkPhase s) (currentMinute s)
    (countdownIntro s) (isInCountdownIntro s) (introTimeRemaining s).

Definition with_isWorkPhase (v : bool) (s : TimerState) : TimerState :=
  Build_TimerState (mode s) (isRunning s) (currentTime s) (countdown s)
    (tabata s) (emom s) (amrap s) (currentRound s) v (currentMinute s)
    (countdownIntro s) (isInCountdownIntro s) (introTimeRemaining s).

Definition with_currentMinute (v : Z) (s : TimerState) : TimerState :=
  Build_TimerState (mode s) (isRunning s) (currentTime s) (countdown s)
    (tabata s) (emom s) (amrap s) (currentRound s) (isWorkPhase s) v
    (countdownIntro s) (isInCountdownIntro s) (introTimeRemaining s).

Definition with_countdownIntro (v : Z) (s : TimerState) : TimerState :=
  Build_TimerState (mode s) (isRunning s) (currentTime s) (countdown s)
    (tabata s) (emom s) (amrap s) (currentRound s) (isWorkPhase s)
    (currentMinute s) v (isInCountdownIntro s) (introTimeRemaining s).

Definition with_isInCountdownIntro (v : bool) (s : TimerState) : TimerState :=
  Build_TimerState (mode s) (isRunning s) (currentTime s) (countdown s)
    (tabata s) (emom s) (amrap s) (currentRound s) (isWorkPhase s)
    (currentMinute s) (countdownIntro s) v (introTimeRemaining s).

Definition with_introTimeRemaining (v : Z) (s : TimerState) : TimerState :=
  Build_TimerState (mode s) (isRunning s) (currentTime s) (countdown s)
    (tabata s) (emom s) (amrap s) (currentRound s) (isWorkPhase s)
    (currentMinute s) (countdownIntro s) (isInCountdownIntro s) v.

Declare Scope spread_scope.
Delimit Scope spread_scope with spread.
Notation "s <| 'mode' := v |>" := (with_mode v s)
  (at level 1, left associativity) : spread_scope.
Notation "s <| 'isRunning' := v |>" := (with_isRunning v s)
  (at level 1, left associativity) : spread_scope.
Notation "s <| 'currentTime' := v |>" := (with_currentTime v s)
  (at level 1, left associativity) : spread_scope.
Notation "s <| 'countdown' := v |>" := (with_countdown v s)
  (at level 1, left associativity) : spread_scope.
Notation "s <| 'tabata' := v |>" := (with_tabata v s)
  (at level 1, left associativity) : spread_scope.
Notation "s <| 'emom' := v |>" := (with_emom v s)
  (at level 1, left associativity) : spread_scope.
Notation "s <| 'amrap' := v |>" := (with_amrap v s)
  (at level 1, left associativity) : spread_scope.
Notation "s <| 'currentRound' := v |>" := (with_currentRound v s)
  (at level 1, left associativity) : spread_scope.
Notation "s <| 'isWorkPhase' := v |>" := (with_isWorkPhase v s)
  (at level 1, left associativity) : spread_scope.
Notation "s <| 'currentMinute' := v |>" := (with_currentMinute v s)
  (at level 1, left associativity) : spread_scope.
Notation "s <| 'countdownIntro' := v |>" := (with_countdownIntro v s)
  (at level 1, left associativity) : spread_scope.
Notation "s <| 'isInCountdownIntro' := v |>" := (with_isInCountdownIntro v s)
  (at level 1, left associativity) : spread_scope.
Notation "s <| 'introTimeRemaining' := v |>" := (with_introTimeRemaining v s)
  (at level 1, left associativity) : spread_scope.
Local Open Scope spread_scope.

(** ** The reducer *)

Definition initialState : TimerState := {|
  mode := Mode.stopwatch;
  isRunning := false;
  currentTime := 0;
  countdown := {| Countdown.totalTime := 180 |};
  tabata := {| workTime := 20; restTime := 10; rounds := 8 |};
  emom := {| intervalTime := 60; totalMinutes := 10 |};
  amrap := {| Amrap.totalTime := 600 |};
  currentRound := 1;
  isWorkPhase := true;
  currentMinute := 1;
  countdownIntro := 10;
  isInCountdownIntro := false;
  introTimeRemaining := 0
|}.

(** The TICK case is a sequence of [if (state.mode === ...)] blocks, each of
    which either returns from the reducer or falls through with the
    [newState] it may have reassigned. *)
Inductive Flow : Set :=
  | Return (result : TimerState)
  | Fallthrough (newState : TimerState).

Definition andThen (f : Flow) (k : TimerState -> Flow) : Flow :=
  match f with
  | Return r => Return r
  | Fallthrough n => k n
  end.

Notation "'let*' n ':=' f 'in' k" := (andThen f (fun n => k))
  (at level 10, n name, f at level 100, k at level 200).

Definition countdownBlock (state : TimerState) (newTime : Z)
    (newState : TimerState) : Flow :=
  if Mode.eqb (mode state) Mode.countdown then
    let remaining := Countdown.totalTime (countdown state) * 1000 - newTime in
    if remaining <=? 0 then
      Return (state <| currentTime := Countdown.totalTime (countdown state) * 1000 |>
                    <| isRunning := false |>)
    else Fallthrough newState
  else Fallthrough newState.

Definition tabataBlock (state : TimerState) (newTime : Z)
    (newState : TimerState) : Flow :=
  if Mode.eqb (mode state) Mode.tabata then
    let workTime := workTime (tabata state) in
    let restTime := restTime (tabata state) in
    let rounds := rounds (tabata state) in
    let cycleTime := (workTime + restTime) * 1000 in
    let currentCycleTime := Z.rem newTime cycleTime in
    let currentRound := newTime / cycleTime + 1 in
    let isWorkPhase := currentCycleTime <? workTime * 1000 in
    if currentRound >? rounds then
      Return (state <| currentTime := rounds * cycleTime |>
                    <| isRunning := false |>
                    <| currentRound := rounds |>
                    <| isWorkPhase := false |>)
    else
      Fallthrough (newState <| currentRound := currentRound |>
                            <| isWorkPhase := isWorkPhase |>)
  else Fallthrough newState.

Definition emomBlock (state : TimerState) (newTime : Z)
    (newState : TimerState) : Flow :=
  if Mode.eqb (mode state) Mode.emom then
    let totalMinutes := totalMinutes (emom state) in
    let currentMinute := newTime / 60000 + 1 in
    if currentMinute >? totalMinutes then
      Return (state <| currentTime := totalMinutes * 60000 |>
                    <| isRunning := false |>
                    <| currentMinute := totalMinutes |>)
    else Fallthrough (newState <| currentMinute := currentMinute |>)
  else Fallthrough newState.

Definition amrapBlock (state : TimerState) (newTime : Z)
    (newState : TimerState) : Flow :=
  if Mode.eqb (mode state) Mode.amrap then
    let totalTime := Amrap.totalTime (amrap state) in
    if newTime >=? totalTime * 1000 then
      Return (state <| currentTime := totalTime * 1000 |>
                    <| isRunning := false |>)
    else Fallthrough newState
  else Fallthrough newState.

Definition finish (f : Flow) : TimerState :=
  match f with
  | Return r => r
  | Fallthrough n => n
  end.

(** [!["clock", "stopwatch"].includes(state.mode)] *)
Definition supportsIntro (m : TimerMode) : bool :=
  negb (existsb (Mode.eqb m) [Mode.clock; Mode.stopwatch]).

Definition timerReducer (state : TimerState) (action : TimerAction) : TimerState :=
  match action with
  | SET_MODE m =>
      state <| mode := m |> <| isRunning := false |> <| currentTime := 0 |>
            <| currentRound := 1 |> <| isWorkPhase := true |>
            <| currentMinute := 1 |> <| isInCountdownIntro := false |>
            <| introTimeRemaining := 0 |>
  | START =>
      let hasIntro := (countdownIntro state >? 0) && supportsIntro (mode state) in
      if hasIntro && (currentTime state =? 0) then
        state <| isRunning := true |> <| isInCountdownIntro := true |>
              <| introTimeRemaining := countdownIntro state * 1000 |>
      else state <| isRunning := true |>
  | STOP => state <| isRunning := false |>
  | RESET =>
      state <| isRunning := false |> <| currentTime := 0 |>
            <| currentRound := 1 |> <| isWorkPhase := true |>
            <| currentMinute := 1 |> <| isInCountdownIntro := false |>
            <| introTimeRemaining := 0 |>
  | TICK delta =>
      if isInCountdownIntro state then
        let newIntroRemaining := introTimeRemaining state - delta in
        if newIntroRemaining <=? 0 then
          state <| isInCountdownIntro := false |> <| introTimeRemaining := 0 |>
                <| currentTime := 0 |>
        else state <| introTimeRemaining := newIntroRemaining |>
      else
        let newTime := currentTime state + delta in
        let newState := state <| currentTime := newTime |> in
        finish (let* newState := countdownBlock state newTime newState in
                let* newState := tabataBlock state newTime newState in
                let* newState := emomBlock state newTime newState in
                let* newState := amrapBlock state newTime newState in
                Fallthrough newState)
  | SET_COUNTDOWN settings => state <| countdown := settings |>
  | SET_TABATA settings => state <| tabata := settings |>
  | SET_EMOM settings => state <| emom := settings |>
  | SET_AMRAP settings => state <| amrap := settings |>
  | SET_COUNTDOWN_INTRO seconds => state <| countdownIntro := seconds |>
  end.

(** [dispatch]ing a list of actions in order, as [useReducer] does. *)
Definition dispatchAll (state : TimerState) (actions : list TimerAction) : TimerState :=
  fold_left timerReducer actions state.

(** ** Vocabulary of the specification *)

(** Positive-integer settings (section 3 of the specification). *)
Definition positiveTabata (t : TabataSettings) : Prop :=
  0 < workTime t /\ 0 < restTime t /\ 0 < rounds t.

Definition positiveSettings (s : TimerState) : Prop :=
  0 < Countdown.totalTime (countdown s) /\ positiveTabata (tabata s) /\
  0 < totalMinutes (emom s) /\ 0 < Amrap.totalTime (amrap s).

(** One work+rest cycle of the state's Tabata settings, in milliseconds. *)
Definition cycleMs (s : TimerState) : Z :=
  (workTime (tabata s) + restTime (tabata s)) * 1000.

(** The completion boundary of the active mode, in milliseconds: the value
    at which the TICK case freezes [currentTime].  Clock and stopwatch have
    none. *)
Definition boundary (s : TimerState) : option Z :=
  match mode s with
  | Mode.countdown => Some (Countdown.totalTime (countdown s) * 1000)
  | Mode.tabata => Some (rounds (tabata s) * cycleMs s)
  | Mode.emom => Some (totalMinutes (emom s) * 60000)
  | Mode.amrap => Some (Amrap.totalTime (amrap s) * 1000)
  | Mode.clock | Mode.stopwatch => None
  end.

(** The Tabata rule as the specification words it, the floor quotient
    written out and its "mod" left to the reader as [remainder]: the
    source's [%] is [Z.rem], the mathematical one is [Z.modulo]. *)
Definition tabataTickSpec (remainder : Z -> Z -> Z) (s : TimerState)
    (delta : Z) : TimerState :=
  let e := currentTime s + delta in
  let round := e / cycleMs s + 1 in
  let work := remainder e (cycleMs s) <? workTime (tabata s) * 1000 in
  if round >? rounds (tabata s) then
    s <| currentTime := rounds (tabata s) * cycleMs s |> <| isRunning := false |>
      <| currentRound := rounds (tabata s) |> <| isWorkPhase := false |>
  else
    s <| currentTime := e |> <| currentRound := round |> <| isWorkPhase := work |>.

(** The EMOM rule as the specification words it: a fixed 60000 ms minute. *)
Definition emomTickSpec (s : TimerState) (delta : Z) : TimerState :=
  let e := currentTime s + delta in
  let minute := e / 60000 + 1 in
  if minute >? totalMinutes (emom s) then
    s <| currentTime := totalMinutes (emom s) * 60000 |> <| isRunning := false |>
      <| currentMinute := totalMinutes (emom s) |>
  else
    s <| currentTime := e |> <| currentMinute := minute |>.

(** The Ticks the driver delivers for a list of measured deltas, and the
    time they add up to. *)
Definition ticks (deltas : list Z) : list TimerAction := map TICK deltas.

Definition sumDeltas (deltas : list Z) : Z := fold_right Z.add 0 deltas.

(** The condition under which START begins the intro, as the specification
    words it. *)
Definition introCondition (s : TimerState) : Prop :=
  mode s <> Mode.clock /\ mode s <> Mode.stopwatch /\
  0 < countdownIntro s /\ currentTime s = 0.

(** States the driver can hold: [initialState] after any actions. *)
Definition reachable (s : TimerState) : Prop :=
  exists actions, s = dispatchAll initialState actions.

(** The intro is only ever pending at elapsed time zero. *)
Definition introAtZero (s : TimerState) : Prop :=
  isInCountdownIntro s = true -> currentTime s = 0.

(** The settings object a mode reads. *)
Inductive ModeSettings : Set :=
  | NoSettings
  | OfCountdown (settings : CountdownSettings)
  | OfTabata (settings : TabataSettings)
  | OfEmom (settings : EmomSettings)
  | OfAmrap (settings : AmrapSettings).

Definition settingsOf (m : TimerMode) (s : TimerState) : ModeSettings :=
  match m with
  | Mode.clock | Mode.stopwatch => NoSettings
  | Mode.countdown => OfCountdown (countdown s)
  | Mode.tabata => OfTabata (tabata s)
  | Mode.emom => OfEmom (emom s)
  | Mode.amrap => OfAmrap (amrap s)
  end.

Definition progressInRange (s : TimerState) : Prop :=
  1 <= currentRound s <= rounds (tabata s) /\
  1 <= currentMinute s <= totalMinutes (emom s).

(** A state as section 3 of the specification has it: positive settings, a
    non-negative elapsed time, round and minute in range. *)
Definition wellFormed (s : TimerState) : Prop :=
  positiveSettings s /\ 0 <= currentTime s /\ progressInRange s.

(** The commands under which the range is kept: Ticks with a delta >= 0,
    settings that are positive, and no edit that puts rounds below the
    current round or totalMinutes below the current minute. *)
Definition keepsRange (s : TimerState) (a : TimerAction) : Prop :=
  match a with
  | TICK delta => 0 <= delta
  | SET_COUNTDOWN settings => 0 < Countdown.totalTime settings
  | SET_TABATA settings =>
      positiveTabata settings /\ currentRound s <= rounds settings
  | SET_EMOM settings =>
      0 < totalMinutes settings /\ currentMinute s <= totalMinutes settings
  | SET_AMRAP settings => 0 < Amrap.totalTime settings
  | SET_MODE _ | START | STOP | RESET | SET_COUNTDOWN_INTRO _ => True
  end.

(** A run in which every command keeps the range in the state it is
    dispatched to. *)
Fixpoint keepsRangeAll (s : TimerState) (actions : list TimerAction) : Prop :=
  match actions with
  | [] => True
  | a :: rest => keepsRange s a /\ keepsRangeAll (timerReducer s a) rest
  end.

(** ** The rest of [useTimer]

    [toggle] dispatches STOP to a running timer and START to a stopped one. *)
Definition toggle (state : TimerState) : TimerState :=
  if isRunning state then timerReducer state STOP else timerReducer state START.

(** The callback of [setInterval]: it reads the clock, takes the time since
    the reading kept in [lastTickRef], stores the new reading and dispatches
    the Tick.  The clock reading [now] is the input; the pair is
    [lastTickRef.current] and the reducer state. *)
Definition intervalCallback (now : Z) (refs : Z * TimerState) : Z * TimerState :=
  let lastTick := fst refs in
  let delta := now - lastTick in
  (now, timerReducer (snd refs) (TICK delta)).

(** The callback fired once for each of the clock [readings], in order. *)
Definition wakeUps (readings : list Z) (refs : Z * TimerState) : Z * TimerState :=
  fold_left (fun r now => intervalCallback now r) readings refs.

(** A clock that does not run backwards: each reading is at least the one
    before, the first at least [from]. *)
Fixpoint clockAdvances (from : Z) (readings : list Z) : Prop :=
  match readings with
  | [] => True
  | now :: rest => from <= now /\ clockAdvances now rest
  end.

(** ** The reducer before the countdown intro

    The first [timerReducer] of [useTimer.ts].  It knows no
    SET_COUNTDOWN_INTRO, which falls to [default], and never touches the
    three intro fields, which its spreads copy.  Its TICK blocks are the
    blocks above, word for word. *)
Definition timerReducerLegacy (state : TimerState) (action : TimerAction) : TimerState :=
  match action with
  | SET_MODE m =>
      state <| mode := m |> <| isRunning := false |> <| currentTime := 0 |>
            <| currentRound := 1 |> <| isWorkPhase := true |>
            <| currentMinute := 1 |>
  | START => state <| isRunning := true |>
  | STOP => state <| isRunning := false |>
  | RESET =>
      state <| isRunning := false |> <| currentTime := 0 |>
            <| currentRound := 1 |> <| isWorkPhase := true |>
            <| currentMinute := 1 |>
  | TICK delta =>
      let newTime := currentTime state + delta in
      let newState := state <| currentTime := newTime |> in
      finish (let* newState := countdownBlock state newTime newState in
              let* newState := tabataBlock state newTime newState in
              let* newState := emomBlock state newTime newState in
              let* newState := amrapBlock state newTime newState in
              Fallthrough newState)
  | SET_COUNTDOWN settings => state <| countdown := settings |>
  | SET_TABATA settings => state <| tabata := settings |>
  | SET_EMOM settings => state <| emom := settings |>
  | SET_AMRAP settings => state <| amrap := settings |>
  | SET_COUNTDOWN_INTRO _ => state
  end.

(** The intro switched off: no intro length, none pending. *)
Definition introOff (s : TimerState) : Prop :=
  countdownIntro s <= 0 /\ isInCountdownIntro s = false /\
  introTimeRemaining s = 0.

(** The actions the first reducer has a case for. *)
Definition isLegacyAction (a : TimerAction) : bool :=
  match a with
  | SET_COUNTDOWN_INTRO _ => false
  | _ => true
  end.

(** The intro flag and the intro time go together: time remains exactly
    while the flag is set. *)
Definition introFlagMatches (s : TimerState) : Prop :=
  (isInCountdownIntro s = true -> 0 < introTimeRemaining s) /\
  (isInCountdownIntro s = false -> introTimeRemaining s = 0).

(** ** Time formatting ([utils/timeFormat])

    [Number.prototype.toString] on an integer: its decimal digits, with a
    minus sign when negative. *)
Definition toString (n : Z) : string :=
  DecimalString.NilZero.string_of_int (Z.to_int n).

(** [count] characters of [padString] repeated, [rest] being what is left of
    the copy in progress. *)
Fixpoint padFill (count : nat) (padString rest : string) : string :=
  match count with
  | O => EmptyString
  | S count' =>
      match rest with
      | String c rest' => String c (padFill count' padString rest')
      | EmptyString =>
          match padString with
          | String c rest' => String c (padFill count' padString rest')
          | EmptyString => EmptyString
          end
      end
  end.

(** [String.prototype.padStart] *)
Definition padStart (targetLength : nat) (padString str : string) : string :=
  if (targetLength <=? String.length str)%nat then str
  else (padFill (targetLength - String.length str) padString padString ++ str)%string.

Definition formatTime (ms : Z) (showMillis : bool) : string :=
  let totalSeconds := ms / 1000 in
  let minutes := totalSeconds / 60 in
  let seconds := Z.rem totalSeconds 60 in
  let millis := Z.rem ms 1000 / 10 in
  let timeStr :=
    (padStart 2 "0" (toString minutes) ++ ":" ++
     padStart 2 "0" (toString seconds))%string in
  if showMillis then (timeStr ++ "." ++ padStart 2 "0" (toString millis))%string
  else timeStr.

Definition formatCountdown (state : TimerState) : string :=
  let remaining :=
    Z.max 0 (Countdown.totalTime (countdown state) * 1000 - currentTime state) in
  formatTime remaining false.

Module TabataDisplay.
Record Result : Set := { time : string; round : string; phase : string }.
End TabataDisplay.

Module EmomDisplay.
Record Result : Set := { time : string; minute : string }.
End EmomDisplay.

Definition formatTabata (state : TimerState) : TabataDisplay.Result :=
  let workTime := workTime (tabata state) in
  let restTime := restTime (tabata state) in
  let cycleTime := (workTime + restTime) * 1000 in
  let currentCycleTime := Z.rem (currentTime state) cycleTime in
  let phaseTime :=
    if isWorkPhase state then workTime * 1000 - currentCycleTime
    else cycleTime - currentCycleTime in
  {| TabataDisplay.time := formatTime (Z.max 0 phaseTime) false;
     TabataDisplay.round :=
       (toString (currentRound state) ++ "/" ++ toString (rounds (tabata state)))%string;
     TabataDisplay.phase := if isWorkPhase state then "WORK"%string else "REST"%string |}.

Definition formatEmom (state : TimerState) : EmomDisplay.Result :=
  let timeInCurrentMinute := Z.rem (currentTime state) 60000 in
  let remaining := 60000 - timeInCurrentMinute in
  {| EmomDisplay.time := formatTime (Z.max 0 remaining) false;
     EmomDisplay.minute :=
       (toString (currentMinute state) ++ "/" ++
        toString (totalMinutes (emom state)))%string |}.

Definition formatAmrap (state : TimerState) : string :=
  let remaining :=
    Z.max 0 (Amrap.totalTime (amrap state) * 1000 - currentTime state) in
  formatTime remaining false.

Definition formatStopwatch (state : TimerState) : string :=
  formatTime (currentTime state) true.

(** ** The LCD background ([LCDDisplay])

    [value.replace(/[0-9]/g, "8")] *)
Definition isDigit (c : ascii) : bool :=
  (48 <=? nat_of_ascii c)%nat && (nat_of_ascii c <=? 57)%nat.

Fixpoint getBackgroundPattern (value : string) : string :=
  match value with
  | EmptyString => EmptyString
  | String c rest =>
      String (if isDigit c then "8"%char else c) (getBackgroundPattern rest)
  end.

(** ** The settings pickers ([PortraitSettings])

    [NumberPicker]: the minus button passes [Math.max(min, value - step)] to
    [onChange], the plus button [Math.min(max, value + step)]. *)
Module NumberPicker.

Record Props : Set := { value : Z; min : Z; max : Z; step : Z }.

Inductive Button : Set := Minus | Plus.

Definition onPress (props : Props) (button : Button) : Z :=
  match button with
  | Minus => Z.max (min props) (value props - step props)
  | Plus => Z.min (max props) (value props + step props)
  end.

End NumberPicker.

(** The pickers of [renderSettings] and [renderIntroSetting], by label. *)
Inductive Picker : Set :=
  | Duration | Work | Rest | Rounds | Minutes | AmrapDuration | StartDelay.

Definition pickerProps (state : TimerState) (p : Picker) : NumberPicker.Props :=
  match p with
  | Duration =>
      {| NumberPicker.value := Countdown.totalTime (countdown state);
         NumberPicker.min := 10; NumberPicker.max := 3600; NumberPicker.step := 10 |}
  | Work =>
      {| NumberPicker.value := workTime (tabata state);
         NumberPicker.min := 5; NumberPicker.max := 120; NumberPicker.step := 5 |}
  | Rest =>
      {| NumberPicker.value := restTime (tabata state);
         NumberPicker.min := 5; NumberPicker.max := 120; NumberPicker.step := 5 |}
  | Rounds =>
      {| NumberPicker.value := rounds (tabata state);
         NumberPicker.min := 1; NumberPicker.max := 50; NumberPicker.step := 1 |}
  | Minutes =>
      {| NumberPicker.value := totalMinutes (emom state);
         NumberPicker.min := 1; NumberPicker.max := 60; NumberPicker.step := 1 |}
  | AmrapDuration =>
      {| NumberPicker.value := Amrap.totalTime (amrap state);
         NumberPicker.min := 60; NumberPicker.max := 3600; NumberPicker.step := 60 |}
  | StartDelay =>
      {| NumberPicker.value := countdownIntro state;
         NumberPicker.min := 0; NumberPicker.max := 10; NumberPicker.step := 1 |}
  end.

(** The action a picker's [onChange] dispatches for the value [v]. *)
Definition pickerOnChange (state : TimerState) (p : Picker) (v : Z) : TimerAction :=
  match p with
  | Duration => SET_COUNTDOWN {| Countdown.totalTime := v |}
  | Work =>
      SET_TABATA {| workTime := v; restTime := restTime (tabata state);
                    rounds := rounds (tabata state) |}
  | Rest =>
      SET_TABATA {| workTime := workTime (tabata state); restTime := v;
                    rounds := rounds (tabata state) |}
  | Rounds =>
      SET_TABATA {| workTime := workTime (tabata state);
                    restTime := restTime (tabata state); rounds := v |}
  | Minutes =>
      SET_EMOM {| intervalTime := intervalTime (emom state); totalMinutes := v |}
  | AmrapDuration => SET_AMRAP {| Amrap.totalTime := v |}
  | StartDelay => SET_COUNTDOWN_INTRO v
  end.

(** Pressing a button of a picker. *)
Definition pressPicker (state : TimerState) (p : Picker)
    (button : NumberPicker.Button) : TimerState :=
  timerReducer state
    (pickerOnChange state p (NumberPicker.onPress (pickerProps state p) button)).

(** What the screen and the interval can do to the state: choose a mode,
    press the main button ([toggle]), press Reset, press a picker button,
    deliver a Tick.  The screen shows the two buttons in every mode but clock
    and only the pickers of the current mode; the events are not restricted
    that way, so what holds of every run of them holds of the screen.  The
    Start Delay picker's [onCountdownIntroChange] is the hook's
    [setCountdownIntro]. *)
Inductive ScreenEvent : Set :=
  | ModeSegment (mode : TimerMode)
  | MainButton
  | ResetButton
  | PickerButton (p : Picker) (button : NumberPicker.Button)
  | IntervalFired (delta : Z).

Definition screenStep (state : TimerState) (e : ScreenEvent) : TimerState :=
  match e with
  | ModeSegment m => timerReducer state (SET_MODE m)
  | MainButton => toggle state
  | ResetButton => timerReducer state RESET
  | PickerButton p button => pressPicker state p button
  | IntervalFired delta => timerReducer state (TICK delta)
  end.

Definition screenRun (state : TimerState) (events : list ScreenEvent) : TimerState :=
  fold_left screenStep events state.

(** The ranges the pickers are given. *)
Definition settingsInRange (s : TimerState) : Prop :=
  10 <= Countdown.totalTime (countdown s) <= 3600 /\
  5 <= workTime (tabata s) <= 120 /\ 5 <= restTime (tabata s) <= 120 /\
  1 <= rounds (tabata s) <= 50 /\
  1 <= totalMinutes (emom s) <= 60 /\
  60 <= Amrap.totalTime (amrap s) <= 3600 /\
  0 <= countdownIntro s <= 10.

(** Actions that leave mode, settings and intro length alone. *)
Definition isTimingAction (a : TimerAction) : bool :=
  match a with
  | START | STOP | RESET | TICK _ => true
  | _ => false
  end.

(** ** Facts about the embedding *)

Module ModeFacts.

Lemma eqb_spec (a b : TimerMode) : reflect (a = b) (Mode.eqb a b).
Proof. destruct a, b; simpl; constructor; congruence. Qed.

Lemma eqb_refl (a : TimerMode) : Mode.eqb a a = true.
Proof. now destruct a. Qed.

End ModeFacts.

(** ** The TICK case, mode by mode *)

Ltac run_blocks :=
  unfold timerReducer, countdownBlock, tabataBlock, emomBlock, amrapBlock.

(** Only the block of the active mode can fire, so outside the intro the
    chain of blocks is a case distinction on the mode. *)
Section OutsideIntro.

Variables (s : TimerState) (delta : Z).
Hypothesis notIntro : isInCountdownIntro s = false.

Lemma tick_main_countdown :
  mode s = Mode.countdown ->
  timerReducer s (TICK delta) =
    if Countdown.totalTime (countdown s) * 1000 - (currentTime s + delta) <=? 0
    then s <| currentTime := Countdown.totalTime (countdown s) * 1000 |>
           <| isRunning := false |>
    else s <| currentTime := currentTime s + delta |>.
Proof.
  intros Hm. run_blocks. rewrite notIntro, Hm. simpl.
  now destruct (_ <=? 0).
Qed.

Lemma tick_main_tabata :
  mode s = Mode.tabata ->
  timerReducer s (TICK delta) =
    let newTime := currentTime s + delta in
    if newTime / cycleMs s + 1 >? rounds (tabata s)
    then s <| currentTime := rounds (tabata s) * cycleMs s |>
           <| isRunning := false |> <| currentRound := rounds (tabata s) |>
           <| isWorkPhase := false |>
    else s <| currentTime := newTime |>
           <| currentRound := newTime / cycleMs s + 1 |>
           <| isWorkPhase := Z.rem newTime (cycleMs s) <? workTime (tabata s) * 1000 |>.
Proof.
  intros Hm. run_blocks. unfold cycleMs. rewrite notIntro, Hm. simpl.
  now destruct (_ >? _).
Qed.

Lemma tick_main_emom :
  mode s = Mode.emom ->
  timerReducer s (TICK delta) =
    let newTime := currentTime s + delta in
    if newTime / 60000 + 1 >? totalMinutes (emom s)
    then s <| currentTime := totalMinutes (emom s) * 60000 |>
           <| isRunning := false |> <| currentMinute := totalMinutes (emom s) |>
    else s <| currentTime := newTime |> <| currentMinute := newTime / 60000 + 1 |>.
Proof.
  intros Hm. run_blocks. rewrite notIntro, Hm. simpl.
  now destruct (_ >? _).
Qed.

Lemma tick_main_amrap :
  mode s = Mode.amrap ->
  timerReducer s (TICK delta) =
    if currentTime s + delta >=? Amrap.totalTime (amrap s) * 1000
    then s <| currentTime := Amrap.totalTime (amrap s) * 1000 |>
           <| isRunning := false |>
    else s <| currentTime := currentTime s + delta |>.
Proof.
  intros Hm. run_blocks. rewrite notIntro, Hm. simpl.
  now destruct (_ >=? _).
Qed.

Lemma tick_main_unbounded :
  boundary s = None ->
  timerReducer s (TICK delta) = s <| currentTime := currentTime s + delta |>.
Proof.
  intros Hb. run_blocks. rewrite notIntro. unfold boundary in Hb.
  destruct (mode s); try discriminate; reflexivity.
Qed.

End OutsideIntro.

Lemma tick_intro (s : TimerState) (delta : Z) :
  isInCountdownIntro s = true ->
  timerReducer s (TICK delta) =
    if introTimeRemaining s - delta <=? 0
    then s <| isInCountdownIntro := false |> <| introTimeRemaining := 0 |>
           <| currentTime := 0 |>
    else s <| introTimeRemaining := introTimeRemaining s - delta |>.
Proof. intros Hi. unfold timerReducer. now rewrite Hi. Qed.

(** The round has run past [rounds] exactly when the elapsed time has
    reached [rounds] whole cycles. *)
Lemma round_past_iff (e c r : Z) :
  0 < c -> (e / c + 1 >? r) = (r * c <=? e).
Proof.
  intros Hc. destruct (Z.leb_spec (r * c) e) as [H | H].
  - apply Z.gtb_lt. rewrite Z.mul_comm in H.
    apply (Z.div_le_lower_bound e c r Hc) in H. lia.
  - destruct (Z.gtb_spec (e / c + 1) r) as [H' | H']; [exfalso | reflexivity].
    assert (r <= e / c) as Hr by lia.
    pose proof (Z.mul_div_le e c Hc). nia.
Qed.

Lemma cycleMs_pos (s : TimerState) :
  positiveTabata (tabata s) -> 0 < cycleMs s.
Proof. unfold positiveTabata, cycleMs. lia. Qed.

(** ** Tabata *)

(** C1.  In Tabata mode, outside the intro, with positive work, rest and
    rounds, a Tick with delta >= 0 computes e = currentTime + delta, the
    round floor(e/cycleMs)+1 and the phase (e mod cycleMs) < workTime*1000;
    past the last round it returns currentTime = rounds*cycleMs,
    isRunning = false, currentRound = rounds, isWorkPhase = false, otherwise
    it stores e, the round and the phase.  The "mod" is the source's [%] in
    every state, and the mathematical one as well on the non-negative
    elapsed times of the data model.  With 20 s work, 10 s rest and 2
    rounds: work phase and round 1 at 19999, rest phase and round 1 at 20000,
    rest phase and round 2 at 59999, and at 60000 the timer is stopped at
    60000 in round 2, rest phase. *)
Theorem tabata_tick_rule :
  (forall s delta,
      mode s = Mode.tabata -> isInCountdownIntro s = false ->
      positiveTabata (tabata s) -> 0 <= delta ->
      timerReducer s (TICK delta) = tabataTickSpec Z.rem s delta /\
      (0 <= currentTime s ->
       timerReducer s (TICK delta) = tabataTickSpec Z.modulo s delta)) /\
  (forall s delta,
      mode s = Mode.tabata -> isInCountdownIntro s = false ->
      tabata s = {| workTime := 20; restTime := 10; rounds := 2 |} ->
      let r := timerReducer s (TICK delta) in
      (currentTime s + delta = 19999 ->
         currentTime r = 19999 /\ isWorkPhase r = true /\ currentRound r = 1 /\
         isRunning r = isRunning s) /\
      (currentTime s + delta = 20000 ->
         currentTime r = 20000 /\ isWorkPhase r = false /\ currentRound r = 1 /\
         isRunning r = isRunning s) /\
      (currentTime s + delta = 59999 ->
         currentTime r = 59999 /\ isWorkPhase r = false /\ currentRound r = 2 /\
         isRunning r = isRunning s) /\
      (currentTime s + delta = 60000 ->
         isRunning r = false /\ currentTime r = 60000 /\ currentRound r = 2 /\
         isWorkPhase r = false)).
Proof.
  split.
  - intros s delta Hm Hi Hpos Hd.
    rewrite tick_main_tabata by assumption. unfold tabataTickSpec. cbv zeta.
    split; [reflexivity |]. intros Hct.
    rewrite Z.rem_mod_nonneg; [reflexivity | lia |].
    now apply cycleMs_pos.
  - intros s delta Hm Hi Hset r. subst r.
    rewrite tick_main_tabata by assumption. unfold cycleMs. rewrite Hset.
    cbn [workTime restTime rounds]. cbv zeta.
    repeat split; match goal with H : _ + _ = _ |- _ => rewrite H end;
      reflexivity.
Qed.

Lemma tabata_tick_rule_witness :
  let s := dispatchAll initialState
             [SET_COUNTDOWN_INTRO 0; SET_MODE Mode.tabata;
              SET_TABATA {| workTime := 20; restTime := 10; rounds := 2 |};
              START; TICK 19000] in
  (mode s = Mode.tabata /\ isInCountdownIntro s = false /\
   positiveTabata (tabata s) /\ 0 <= currentTime s) /\
  timerReducer s (TICK 999) = tabataTickSpec Z.modulo s 999.
Proof.
  cbv zeta. split.
  - repeat split; cbn; lia.
  - apply (proj1 tabata_tick_rule);
      [reflexivity | reflexivity | repeat split; cbn; lia | lia | cbn; lia].
Defined.

(** ** Completion *)

Lemma boundary_cases (s : TimerState) (b : Z) :
  boundary s = Some b ->
  (mode s = Mode.countdown /\ b = Countdown.totalTime (countdown s) * 1000) \/
  (mode s = Mode.tabata /\ b = rounds (tabata s) * cycleMs s) \/
  (mode s = Mode.emom /\ b = totalMinutes (emom s) * 60000) \/
  (mode s = Mode.amrap /\ b = Amrap.totalTime (amrap s) * 1000).
Proof.
  unfold boundary. destruct (mode s); intros H; inversion H; auto 6.
Qed.

(** A Tick that reaches the boundary lands on it and stops. *)
Lemma tick_reaches_boundary (s : TimerState) (delta b : Z) :
  isInCountdownIntro s = false -> positiveTabata (tabata s) ->
  boundary s = Some b -> b <= currentTime s + delta ->
  timerReducer s (TICK delta) =
    match mode s with
    | Mode.tabata =>
        s <| currentTime := b |> <| isRunning := false |>
          <| currentRound := rounds (tabata s) |> <| isWorkPhase := false |>
    | Mode.emom =>
        s <| currentTime := b |> <| isRunning := false |>
          <| currentMinute := totalMinutes (emom s) |>
    | _ => s <| currentTime := b |> <| isRunning := false |>
    end.
Proof.
  intros Hi Hpos Hb Hle.
  destruct (boundary_cases s b Hb) as [[Hm ->] | [[Hm ->] | [[Hm ->] | [Hm ->]]]];
    rewrite Hm.
  - rewrite tick_main_countdown by assumption.
    destruct (Z.leb_spec (Countdown.totalTime (countdown s) * 1000
                          - (currentTime s + delta)) 0); [reflexivity | lia].
  - rewrite tick_main_tabata by assumption. cbv zeta.
    rewrite round_past_iff by now apply cycleMs_pos.
    destruct (Z.leb_spec (rounds (tabata s) * cycleMs s) (currentTime s + delta));
      [reflexivity | lia].
  - rewrite tick_main_emom by assumption. cbv zeta.
    rewrite round_past_iff by lia.
    destruct (Z.leb_spec (totalMinutes (emom s) * 60000) (currentTime s + delta));
      [reflexivity | lia].
  - rewrite tick_main_amrap by assumption.
    destruct (Z.geb_spec (currentTime s + delta) (Amrap.totalTime (amrap s) * 1000));
      [reflexivity | lia].
Qed.

(** C2.  In a mode with a completion boundary (countdown, tabata, emom,
    amrap) and positive settings, a Tick with delta >= 0 that carries the
    elapsed time to or past the boundary yields currentTime equal to the
    boundary and isRunning = false, and every further Tick with a delta >= 0
    returns that completed state unchanged. *)
Theorem completion_exact_and_absorbing (s : TimerState) (delta b : Z) :
  isInCountdownIntro s = false -> positiveSettings s ->
  boundary s = Some b -> 0 <= delta -> b <= currentTime s + delta ->
  let s' := timerReducer s (TICK delta) in
  currentTime s' = b /\ isRunning s' = false /\
  forall d, 0 <= d -> timerReducer s' (TICK d) = s'.
Proof.
  intros Hi (_ & Hpos & _ & _) Hb Hd Hle s'.
  assert (Hs' : s' = timerReducer s (TICK delta)) by reflexivity.
  rewrite (tick_reaches_boundary s delta b Hi Hpos Hb Hle) in Hs'.
  destruct (boundary_cases s b Hb) as [[Hm Eb] | [[Hm Eb] | [[Hm Eb] | [Hm Eb]]]];
    rewrite Hm in Hs'; rewrite Hs'; (split; [reflexivity |]);
    (split; [reflexivity |]); intros d Hd';
    (rewrite (tick_reaches_boundary _ d b);
     [ destruct s; cbn in *; subst; reflexivity
     | destruct s; assumption
     | destruct s; assumption
     | destruct s; cbn in *; unfold boundary, cycleMs in *; cbn in *; subst;
       reflexivity
     | destruct s; cbn; lia ]).
Qed.

Lemma completion_exact_and_absorbing_witness :
  let s := dispatchAll initialState
             [SET_COUNTDOWN_INTRO 0; SET_MODE Mode.countdown; START;
              TICK 179990] in
  let s' := timerReducer s (TICK 25) in
  (positiveSettings s /\ boundary s = Some 180000 /\ currentTime s = 179990) /\
  currentTime s' = 180000 /\ isRunning s' = false /\
  forall d, 0 <= d -> timerReducer s' (TICK d) = s'.
Proof.
  cbv zeta. split.
  - repeat split; cbn; lia.
  - apply (completion_exact_and_absorbing _ 25 180000);
      [reflexivity | repeat split; cbn; lia | reflexivity | lia | cbn; lia].
Defined.

(** ** The countdown intro *)

Lemma sumDeltas_nonneg (deltas : list Z) :
  Forall (fun d => 0 <= d) deltas -> 0 <= sumDeltas deltas.
Proof. induction 1; simpl; lia. Qed.

(** Once the intro is over, Ticks that add up to nothing leave a countdown
    at zero. *)
Lemma countdown_rests_at_zero (deltas : list Z) :
  Forall (fun d => 0 <= d) deltas -> sumDeltas deltas = 0 ->
  forall s,
    mode s = Mode.countdown -> isInCountdownIntro s = false ->
    currentTime s = 0 -> 0 <= Countdown.totalTime (countdown s) ->
    let s' := dispatchAll s (ticks deltas) in
    isInCountdownIntro s' = false /\ currentTime s' = 0.
Proof.
  induction 1 as [| d deltas Hd Hall IH]; intros Hsum s Hm Hi Hct Htot.
  - now split.
  - simpl in Hsum. pose proof (sumDeltas_nonneg deltas Hall).
    assert (d = 0) by lia. subst d.
    cbn [ticks map dispatchAll fold_left].
    rewrite tick_main_countdown by assumption.
    destruct (_ <=? 0) eqn:E.
    + apply Z.leb_le in E. apply IH; cbn; try assumption; lia.
    + apply IH; cbn; try assumption; lia.
Qed.

(** While the intro lasts, non-negative deltas that add up to exactly the
    time remaining end it and leave the main timer at zero. *)
Lemma intro_runs_out (deltas : list Z) :
  Forall (fun d => 0 <= d) deltas ->
  forall s,
    mode s = Mode.countdown -> isInCountdownIntro s = true ->
    currentTime s = 0 -> 0 <= Countdown.totalTime (countdown s) ->
    0 < introTimeRemaining s -> sumDeltas deltas = introTimeRemaining s ->
    let s' := dispatchAll s (ticks deltas) in
    isInCountdownIntro s' = false /\ currentTime s' = 0.
Proof.
  induction 1 as [| d deltas Hd Hall IH]; intros s Hm Hi Hct Htot Hrem Hsum.
  - simpl in Hsum. lia.
  - simpl in Hsum. pose proof (sumDeltas_nonneg deltas Hall) as Hrest.
    cbn [ticks map dispatchAll fold_left].
    rewrite tick_intro by assumption.
    destruct (Z.leb_spec (introTimeRemaining s - d) 0) as [E | E].
    + apply (countdown_rests_at_zero deltas Hall); cbn; try assumption; lia.
    + apply IH; cbn; try assumption; lia.
Qed.

(** C3.  While isInCountdownIntro holds, a Tick subtracts delta from
    introTimeRemaining.  If the result is <= 0 the intro is cleared,
    introTimeRemaining and currentTime are zero (the overshoot is dropped);
    otherwise the decremented introTimeRemaining is stored and currentTime
    is unchanged.  A countdown with a 5 second intro started at
    currentTime = 0 and given non-negative deltas adding up to exactly
    5000 ms ends outside the intro with currentTime = 0. *)
Theorem intro_tick_rule :
  (forall s delta,
      isInCountdownIntro s = true ->
      let r := timerReducer s (TICK delta) in
      (introTimeRemaining s - delta <= 0 ->
         r = s <| isInCountdownIntro := false |> <| introTimeRemaining := 0 |>
               <| currentTime := 0 |>) /\
      (0 < introTimeRemaining s - delta ->
         r = s <| introTimeRemaining := introTimeRemaining s - delta |> /\
         currentTime r = currentTime s)) /\
  (forall s deltas,
      mode s = Mode.countdown -> countdownIntro s = 5 -> currentTime s = 0 ->
      0 <= Countdown.totalTime (countdown s) ->
      Forall (fun d => 0 <= d) deltas -> sumDeltas deltas = 5000 ->
      let afterStart := timerReducer s START in
      let s' := dispatchAll afterStart (ticks deltas) in
      isInCountdownIntro afterStart = true /\
      introTimeRemaining afterStart = 5000 /\
      isInCountdownIntro s' = false /\ currentTime s' = 0).
Proof.
  split.
  - intros s delta Hi r. subst r. rewrite tick_intro by assumption.
    split; intros H.
    + destruct (Z.leb_spec (introTimeRemaining s - delta) 0); [reflexivity | lia].
    + destruct (Z.leb_spec (introTimeRemaining s - delta) 0); [lia | now split].
  - intros s deltas Hm Hci Hct Htot Hall Hsum afterStart s'.
    assert (Hstart : timerReducer s START =
              s <| isRunning := true |> <| isInCountdownIntro := true |>
                <| introTimeRemaining := 5000 |>).
    { unfold timerReducer. rewrite Hm, Hci, Hct. reflexivity. }
    subst s' afterStart. rewrite Hstart.
    split; [reflexivity |]. split; [reflexivity |].
    apply (intro_runs_out deltas Hall); cbn; try assumption; lia.
Qed.

Lemma intro_tick_rule_witness :
  let s := dispatchAll initialState
             [SET_MODE Mode.countdown; SET_COUNTDOWN_INTRO 5] in
  let s' := dispatchAll (timerReducer s START) (ticks [2000; 0; 2990; 10]) in
  (mode s = Mode.countdown /\ countdownIntro s = 5 /\ currentTime s = 0) /\
  isInCountdownIntro s' = false /\ currentTime s' = 0.
Proof.
  cbv zeta. split.
  - repeat split.
  - apply (proj2 intro_tick_rule);
      [reflexivity | reflexivity | reflexivity | cbn; lia
      | repeat constructor; lia | reflexivity].
Defined.

(** ** START *)

Lemma start_test_iff (s : TimerState) :
  (countdownIntro s >? 0) && supportsIntro (mode s) && (currentTime s =? 0) = true
  <-> introCondition s.
Proof.
  unfold introCondition. rewrite !andb_true_iff, Z.eqb_eq.
  rewrite <- Zgt_is_gt_bool, Z.gt_lt_iff.
  destruct (mode s); cbn; intuition congruence.
Qed.

Lemma introAtZero_step (s : TimerState) (a : TimerAction) :
  introAtZero s -> introAtZero (timerReducer s a).
Proof.
  unfold introAtZero. intros Hs.
  destruct a as [m | | | | delta | c | t | e | am | secs]; cbn;
    try discriminate; try assumption.
  - destruct (_ && (currentTime s =? 0)) eqn:E; cbn; [| assumption].
    apply andb_true_iff in E. intros _. now apply Z.eqb_eq.
  - destruct (isInCountdownIntro s) eqn:Hi.
    + destruct (_ <=? 0); cbn; [discriminate | auto].
    + unfold countdownBlock, tabataBlock, emomBlock, amrapBlock.
      destruct (mode s); cbn;
        repeat match goal with
               | |- context [if ?c then _ else _] => destruct c; cbn
               end; congruence.
Qed.

Lemma introAtZero_run (actions : list TimerAction) (s : TimerState) :
  introAtZero s -> introAtZero (dispatchAll s actions).
Proof.
  revert s. induction actions as [| a actions IH]; intros s Hs; cbn.
  - assumption.
  - apply IH, introAtZero_step, Hs.
Qed.

Lemma reachable_introAtZero (s : TimerState) : reachable s -> introAtZero s.
Proof.
  intros [actions ->]. apply introAtZero_run. intros H. discriminate H.
Qed.

Lemma start_enters_intro (s : TimerState) :
  introCondition s ->
  timerReducer s START =
    s <| isRunning := true |> <| isInCountdownIntro := true |>
      <| introTimeRemaining := countdownIntro s * 1000 |>.
Proof.
  intros Hc. apply start_test_iff in Hc. unfold timerReducer. now rewrite Hc.
Qed.

Lemma start_resumes (s : TimerState) :
  ~ introCondition s -> timerReducer s START = s <| isRunning := true |>.
Proof.
  intros Hc. unfold timerReducer.
  destruct (_ && (currentTime s =? 0)) eqn:E; [| reflexivity].
  apply start_test_iff in E. contradiction.
Qed.

(** C4.  START sets isRunning.  It enters the intro (isInCountdownIntro,
    introTimeRemaining = countdownIntro*1000) exactly when the mode is
    neither clock nor stopwatch, countdownIntro > 0 and currentTime = 0; in
    every other case it changes isRunning only.  Starting with
    currentTime > 0 touches neither the intro flag nor currentTime, so a
    resumed run of the driver is never in the intro. *)
Theorem start_rule (s : TimerState) :
  let r := timerReducer s START in
  isRunning r = true /\
  (introCondition s ->
     r = s <| isRunning := true |> <| isInCountdownIntro := true |>
           <| introTimeRemaining := countdownIntro s * 1000 |>) /\
  (~ introCondition s -> r = s <| isRunning := true |>) /\
  (0 < currentTime s ->
     isInCountdownIntro r = isInCountdownIntro s /\
     currentTime r = currentTime s /\
     (reachable s -> isInCountdownIntro r = false)).
Proof.
  intros r. subst r.
  split.
  { unfold timerReducer. now destruct (_ && (currentTime s =? 0)). }
  split; [apply start_enters_intro |]. split; [apply start_resumes |].
  intros Hpos. rewrite start_resumes by (unfold introCondition; lia).
  split; [reflexivity |]. split; [reflexivity |].
  intros Hr. cbn. apply reachable_introAtZero in Hr. unfold introAtZero in Hr.
  destruct (isInCountdownIntro s); [| reflexivity].
  specialize (Hr eq_refl). lia.
Qed.

Lemma start_rule_witness :
  let s := dispatchAll initialState
             [SET_MODE Mode.countdown; START; TICK 10000; TICK 3000; STOP] in
  let r := timerReducer s START in
  (currentTime s = 3000 /\ isRunning s = false) /\
  isInCountdownIntro r = false /\ isRunning r = true /\ currentTime r = 3000.
Proof.
  cbv zeta. split.
  - repeat split.
  - destruct (start_rule
                (dispatchAll initialState
                   [SET_MODE Mode.countdown; START; TICK 10000; TICK 3000; STOP]))
      as (Hrun & _ & _ & Hresume).
    destruct Hresume as (_ & Hct & Hreach); [cbn; lia |].
    split; [apply Hreach; eexists; reflexivity |].
    split; [exact Hrun | exact Hct].
Defined.

(** C10.  START dispatched during the intro (running, in the intro, at
    currentTime = 0, with countdownIntro > 0, in a mode other than clock and
    stopwatch) resets introTimeRemaining to countdownIntro*1000 and changes
    nothing else: the intro begins again, whatever part of it had elapsed. *)
Theorem start_during_intro_restarts (s : TimerState) :
  isRunning s = true -> isInCountdownIntro s = true -> currentTime s = 0 ->
  0 < countdownIntro s -> mode s <> Mode.clock -> mode s <> Mode.stopwatch ->
  timerReducer s START = s <| introTimeRemaining := countdownIntro s * 1000 |> /\
  introTimeRemaining (timerReducer s START) = countdownIntro s * 1000.
Proof.
  intros Hr Hi Hct Hci Hclock Hsw.
  rewrite start_enters_intro by (repeat split; assumption).
  split; [| reflexivity].
  destruct s; cbn in *. now subst.
Qed.

Lemma start_during_intro_restarts_witness :
  let s := dispatchAll initialState
             [SET_MODE Mode.countdown; START; TICK 4000] in
  (isInCountdownIntro s = true /\ introTimeRemaining s = 6000) /\
  introTimeRemaining (timerReducer s START) = 10000.
Proof.
  cbv zeta. split.
  - repeat split.
  - apply (start_during_intro_restarts
             (dispatchAll initialState
                [SET_MODE Mode.countdown; START; TICK 4000]));
      [reflexivity | reflexivity | reflexivity | cbn; lia
      | cbn; discriminate | cbn; discriminate].
Defined.

(** ** EMOM *)

(** C5.  In EMOM mode, outside the intro, a Tick computes the minute as
    floor((currentTime+delta)/60000)+1 whatever intervalTime is stored; past
    totalMinutes it returns currentTime = totalMinutes*60000,
    isRunning = false, currentMinute = totalMinutes, otherwise it stores the
    elapsed time and the minute.  Replacing intervalTime changes nothing but
    the stored setting.  With totalMinutes = 3: minute 3 and still running
    at 179999, stopped at 180000 in minute 3 at 180000. *)
Theorem emom_tick_rule :
  (forall s delta,
      mode s = Mode.emom -> isInCountdownIntro s = false -> 0 <= delta ->
      timerReducer s (TICK delta) = emomTickSpec s delta) /\
  (forall s delta interval,
      mode s = Mode.emom -> isInCountdownIntro s = false -> 0 <= delta ->
      let e' := {| intervalTime := interval; totalMinutes := totalMinutes (emom s) |} in
      timerReducer (s <| emom := e' |>) (TICK delta) =
      (timerReducer s (TICK delta)) <| emom := e' |>) /\
  (forall s delta,
      mode s = Mode.emom -> isInCountdownIntro s = false ->
      totalMinutes (emom s) = 3 ->
      let r := timerReducer s (TICK delta) in
      (currentTime s + delta = 179999 ->
         currentTime r = 179999 /\ currentMinute r = 3 /\
         isRunning r = isRunning s) /\
      (currentTime s + delta = 180000 ->
         isRunning r = false /\ currentTime r = 180000 /\ currentMinute r = 3)).
Proof.
  split; [| split].
  - intros s delta Hm Hi _. now rewrite tick_main_emom.
  - intros s delta interval Hm Hi _ e'. subst e'.
    rewrite !tick_main_emom by assumption. cbn.
    now destruct (_ >? _).
  - intros s delta Hm Hi Htot r. subst r.
    rewrite tick_main_emom by assumption. cbv zeta. rewrite Htot.
    split; intros ->; repeat split.
Qed.

Lemma emom_tick_rule_witness :
  let s := dispatchAll initialState
             [SET_COUNTDOWN_INTRO 0; SET_MODE Mode.emom;
              SET_EMOM {| intervalTime := 30; totalMinutes := 3 |};
              START; TICK 179000] in
  (mode s = Mode.emom /\ isInCountdownIntro s = false) /\
  timerReducer s (TICK 999) = emomTickSpec s 999 /\
  currentMinute (timerReducer s (TICK 999)) = 3.
Proof.
  cbv zeta. split; [| split].
  - repeat split.
  - apply (proj1 emom_tick_rule); [reflexivity | reflexivity | lia].
  - reflexivity.
Defined.

(** ** SET_MODE *)

Lemma set_mode_keeps_settings (s : TimerState) (m : TimerMode) :
  let r := timerReducer s (SET_MODE m) in
  countdown r = countdown s /\ tabata r = tabata s /\
  emom r = emom s /\ amrap r = amrap s.
Proof. cbn. auto. Qed.

(** C7.  SET_MODE leaves the four settings objects (countdown, tabata, emom,
    amrap) as they were; so after SET_MODE A, SET_MODE B, SET_MODE A the mode
    is A and the settings of A, like all the others, are those the state held
    at the start. *)
Theorem set_mode_round_trip :
  (forall s m,
      let r := timerReducer s (SET_MODE m) in
      countdown r = countdown s /\ tabata r = tabata s /\
      emom r = emom s /\ amrap r = amrap s) /\
  (forall s A B,
      let r := dispatchAll s [SET_MODE A; SET_MODE B; SET_MODE A] in
      mode r = A /\ settingsOf A r = settingsOf A s /\
      countdown r = countdown s /\ tabata r = tabata s /\
      emom r = emom s /\ amrap r = amrap s).
Proof.
  split.
  - apply set_mode_keeps_settings.
  - intros s A B r. subst r. cbn [dispatchAll fold_left].
    repeat split.
Qed.

(** ** TICK while stopped *)

(** C9.  TICK never reads isRunning.  On a stopped state outside the intro
    it does what it does on the same state running (adds delta, applies the
    completion and phase logic of the mode), isRunning staying false; in
    stopwatch mode the stopped timer advances by delta. *)
Theorem tick_has_no_running_guard (s : TimerState) (delta : Z) :
  isRunning s = false -> isInCountdownIntro s = false ->
  timerReducer s (TICK delta) =
    (timerReducer (s <| isRunning := true |>) (TICK delta)) <| isRunning := false |> /\
  (mode s = Mode.stopwatch ->
     timerReducer s (TICK delta) = s <| currentTime := currentTime s + delta |> /\
     currentTime (timerReducer s (TICK delta)) = currentTime s + delta /\
     isRunning (timerReducer s (TICK delta)) = false).
Proof.
  intros Hr Hi. split.
  - unfold timerReducer, countdownBlock, tabataBlock, emomBlock, amrapBlock.
    destruct s; cbn in *. subst.
    destruct mode0; cbn;
      repeat match goal with
             | |- context [if ?c then _ else _] => destruct c; cbn
             end; reflexivity.
  - intros Hm.
    rewrite tick_main_unbounded by (try assumption; unfold boundary; now rewrite Hm).
    split; [reflexivity |]. split; [reflexivity | exact Hr].
Qed.

Lemma tick_has_no_running_guard_witness :
  let s := dispatchAll initialState [START; TICK 500; STOP] in
  (isRunning s = false /\ mode s = Mode.stopwatch /\ currentTime s = 500) /\
  currentTime (timerReducer s (TICK 250)) = 750.
Proof.
  cbv zeta. split.
  - repeat split.
  - apply (proj2 (tick_has_no_running_guard
                    (dispatchAll initialState [START; TICK 500; STOP]) 250
                    eq_refl eq_refl) eq_refl).
Defined.

(** ** Elapsed time under TICK *)

(** C6, as stated, fails twice over.  A negative delta is added as it is: a
    stopwatch at 1000 ms given TICK (-1) shows 999.  And a zero delta clamps
    an elapsed time that an edit of the settings left beyond the boundary: a
    countdown paused at 100000 ms whose total is then set to 60 s is brought
    back to 60000 by TICK 0. *)
Lemma tick_can_decrease_elapsed :
  (let s := dispatchAll initialState [START; TICK 1000] in
   let delta := -1 in
   isInCountdownIntro s = false /\ delta <= 0 /\
   currentTime s = 1000 /\ currentTime (timerReducer s (TICK delta)) = 999 /\
   ~ currentTime s <= currentTime (timerReducer s (TICK delta))) /\
  (let s := dispatchAll initialState
              [SET_MODE Mode.countdown; SET_COUNTDOWN_INTRO 0; START;
               TICK 100000; STOP;
               SET_COUNTDOWN {| Countdown.totalTime := 60 |}] in
   let delta := 0 in
   isInCountdownIntro s = false /\ delta <= 0 /\
   currentTime s = 100000 /\ currentTime (timerReducer s (TICK delta)) = 60000 /\
   ~ currentTime s <= currentTime (timerReducer s (TICK delta))).
Proof. cbv zeta. repeat split; cbn; lia. Qed.

(** C6, amended.  Outside the intro, with positive Tabata settings and an
    elapsed time that does not exceed the boundary of the active mode, a
    Tick with delta >= 0 (a zero delta in particular) never decreases
    currentTime.  In a mode without a boundary every delta, negative ones
    included, is added to currentTime as it is. *)
Theorem tick_within_boundary_never_decreases :
  (forall s delta,
      isInCountdownIntro s = false -> positiveTabata (tabata s) ->
      (forall b, boundary s = Some b -> currentTime s <= b) ->
      0 <= delta ->
      currentTime s <= currentTime (timerReducer s (TICK delta))) /\
  (forall s delta,
      isInCountdownIntro s = false -> boundary s = None ->
      currentTime (timerReducer s (TICK delta)) = currentTime s + delta).
Proof.
  split.
  - intros s delta Hi Hpos Hwithin Hd.
    destruct (boundary s) as [b |] eqn:Hb.
    + specialize (Hwithin b eq_refl).
      destruct (Z_le_gt_dec b (currentTime s + delta)) as [Hreach | Hbelow].
      * rewrite (tick_reaches_boundary s delta b) by assumption.
        now destruct (mode s).
      * destruct (boundary_cases s b Hb)
          as [[Hm Eb] | [[Hm Eb] | [[Hm Eb] | [Hm Eb]]]].
        -- rewrite tick_main_countdown by assumption.
           destruct (Z.leb_spec (Countdown.totalTime (countdown s) * 1000
                                 - (currentTime s + delta)) 0); cbn; lia.
        -- rewrite tick_main_tabata by assumption. cbv zeta.
           rewrite round_past_iff by now apply cycleMs_pos.
           destruct (Z.leb_spec (rounds (tabata s) * cycleMs s)
                                (currentTime s + delta)); cbn; lia.
        -- rewrite tick_main_emom by assumption. cbv zeta.
           rewrite round_past_iff by lia.
           destruct (Z.leb_spec (totalMinutes (emom s) * 60000)
                                (currentTime s + delta)); cbn; lia.
        -- rewrite tick_main_amrap by assumption.
           destruct (Z.geb_spec (currentTime s + delta)
                                (Amrap.totalTime (amrap s) * 1000)); cbn; lia.
    + rewrite tick_main_unbounded by assumption. cbn. lia.
  - intros s delta Hi Hb. now rewrite tick_main_unbounded.
Qed.

Lemma tick_within_boundary_never_decreases_witness :
  let s := dispatchAll initialState
             [SET_COUNTDOWN_INTRO 0; SET_MODE Mode.countdown; START;
              TICK 1000] in
  (boundary s = Some 180000 /\ currentTime s = 1000) /\
  currentTime s <= currentTime (timerReducer s (TICK 0)).
Proof.
  cbv zeta. split.
  - repeat split.
  - apply (proj1 tick_within_boundary_never_decreases);
      [ reflexivity | repeat split; cbn; lia
      | intros b Hb; cbn in Hb; injection Hb as <-; cbn; lia | lia ].
Defined.

(** ** Round and minute stay in range *)

(** C8, as stated, fails: an edit of the settings is applied whatever the
    progress.  Five rounds into the default Tabata (round 5 of 8), setting
    rounds to 3 leaves currentRound = 5 above rounds = 3. *)
Lemma settings_edit_breaks_range :
  let s := dispatchAll initialState
             [SET_COUNTDOWN_INTRO 0; SET_MODE Mode.tabata; START;
              TICK 130000; STOP] in
  let t := {| workTime := 20; restTime := 10; rounds := 3 |} in
  wellFormed s /\ currentRound s = 5 /\ positiveTabata t /\
  ~ progressInRange (timerReducer s (SET_TABATA t)).
Proof.
  cbv zeta. split; [| split; [| split]].
  - unfold wellFormed, positiveSettings, positiveTabata, progressInRange.
    cbn. lia.
  - reflexivity.
  - unfold positiveTabata. cbn. lia.
  - unfold progressInRange. cbn. lia.
Qed.

Lemma initialState_wellFormed : wellFormed initialState.
Proof.
  unfold wellFormed, positiveSettings, positiveTabata, progressInRange.
  cbn. lia.
Qed.

Lemma div_succ_ge_1 (e c : Z) : 0 <= e -> 0 < c -> 1 <= e / c + 1.
Proof. intros He Hc. pose proof (Z.div_pos e c He Hc). lia. Qed.

Lemma wellFormed_step (s : TimerState) (a : TimerAction) :
  wellFormed s -> keepsRange s a -> wellFormed (timerReducer s a).
Proof.
  unfold wellFormed, positiveSettings, progressInRange.
  intros (Hset & Hct & Hround & Hminute) Hk.
  assert (Hcycle : 0 < cycleMs s) by (apply cycleMs_pos; tauto).
  destruct Hset as (Hcd & Htab & Hem & Ham). unfold positiveTabata in *.
  destruct a as [m | | | | delta | c | t | e | am | secs]; cbn in Hk.
  - cbn. lia.
  - unfold timerReducer. destruct (_ && (currentTime s =? 0)); cbn; tauto.
  - cbn. tauto.
  - cbn. lia.
  - destruct (isInCountdownIntro s) eqn:Hi.
    + rewrite tick_intro by assumption.
      destruct (_ <=? 0); cbn; repeat split; try tauto; lia.
    + destruct (boundary s) as [b |] eqn:Hb.
      * destruct (boundary_cases s b Hb)
          as [[Hm Eb] | [[Hm Eb] | [[Hm Eb] | [Hm Eb]]]].
        -- rewrite tick_main_countdown by assumption.
           destruct (_ <=? 0); cbn; repeat split; try tauto; lia.
        -- rewrite tick_main_tabata by assumption. cbv zeta.
           pose proof (div_succ_ge_1 (currentTime s + delta) (cycleMs s)
                         ltac:(lia) Hcycle).
           destruct (Z.gtb_spec ((currentTime s + delta) / cycleMs s + 1)
                                (rounds (tabata s)));
             cbn; repeat split; try tauto; nia.
        -- rewrite tick_main_emom by assumption. cbv zeta.
           pose proof (div_succ_ge_1 (currentTime s + delta) 60000
                         ltac:(lia) ltac:(lia)).
           destruct (Z.gtb_spec ((currentTime s + delta) / 60000 + 1)
                                (totalMinutes (emom s)));
             cbn; repeat split; try tauto; lia.
        -- rewrite tick_main_amrap by assumption.
           destruct (_ >=? _); cbn; repeat split; try tauto; lia.
      * rewrite tick_main_unbounded by assumption.
        cbn; repeat split; try tauto; lia.
  - cbn. tauto.
  - cbn. unfold positiveTabata in Hk. intuition lia.
  - cbn. intuition lia.
  - cbn. tauto.
  - cbn. tauto.
Qed.

(** C8, amended.  From a state with positive settings, elapsed time >= 0,
    currentRound in [1, rounds] and currentMinute in [1, totalMinutes], every
    command yields such a state again, provided Tick deltas are >= 0, new
    settings are positive, SET_TABATA does not set rounds below currentRound
    and SET_EMOM does not set totalMinutes below currentMinute; hence the
    range is kept along every run of such commands, from [initialState] in
    particular. *)
Theorem progress_stays_in_range :
  (forall s a,
      wellFormed s -> keepsRange s a ->
      wellFormed (timerReducer s a) /\ progressInRange (timerReducer s a)) /\
  (forall actions s,
      wellFormed s -> keepsRangeAll s actions ->
      wellFormed (dispatchAll s actions) /\
      progressInRange (dispatchAll s actions)) /\
  (forall actions,
      keepsRangeAll initialState actions ->
      progressInRange (dispatchAll initialState actions)).
Proof.
  assert (Hrange : forall s, wellFormed s -> wellFormed s /\ progressInRange s)
    by (intros s Hs; split; [exact Hs | apply Hs]).
  assert (Hrun : forall actions s,
             wellFormed s -> keepsRangeAll s actions ->
             wellFormed (dispatchAll s actions)).
  { induction actions as [| a rest IH]; intros s Hs Hk.
    - exact Hs.
    - destruct Hk as [Ha Hrest]. cbn [dispatchAll fold_left].
      apply IH; [now apply wellFormed_step | exact Hrest]. }
  split; [| split].
  - intros s a Hs Hk. now apply Hrange, wellFormed_step.
  - intros actions s Hs Hk. now apply Hrange, Hrun.
  - intros actions Hk.
    apply Hrange, Hrun; [apply initialState_wellFormed | exact Hk].
Qed.

Lemma progress_stays_in_range_witness :
  let s := dispatchAll initialState
             [SET_COUNTDOWN_INTRO 0; SET_MODE Mode.tabata; START;
              TICK 130000] in
  (wellFormed s /\ currentRound s = 5) /\
  progressInRange (timerReducer s (TICK 10)) /\
  progressInRange
    (timerReducer s
       (SET_TABATA {| workTime := 30; restTime := 15; rounds := 5 |})).
Proof.
  cbv zeta.
  assert (Hs : wellFormed
                 (dispatchAll initialState
                    [SET_COUNTDOWN_INTRO 0; SET_MODE Mode.tabata; START;
                     TICK 130000]))
    by (repeat split; cbn; lia).
  split; [split; [exact Hs | reflexivity] |].
  split; apply (proj1 progress_stays_in_range); try exact Hs.
  - cbn; lia.
  - repeat split; cbn; lia.
Defined.

(** * Further properties of the code *)

(** ** Ticks add up *)

(** Below the boundary a Tick stores the new time, with the round and phase
    or the minute that go with it. *)
Lemma tick_below_boundary (s : TimerState) (delta b : Z) :
  isInCountdownIntro s = false -> positiveTabata (tabata s) ->
  boundary s = Some b -> currentTime s + delta < b ->
  timerReducer s (TICK delta) =
    let e := currentTime s + delta in
    match mode s with
    | Mode.tabata =>
        s <| currentTime := e |> <| currentRound := e / cycleMs s + 1 |>
          <| isWorkPhase := Z.rem e (cycleMs s) <? workTime (tabata s) * 1000 |>
    | Mode.emom => s <| currentTime := e |> <| currentMinute := e / 60000 + 1 |>
    | _ => s <| currentTime := e |>
    end.
Proof.
  intros Hi Hpos Hb Hlt. cbv zeta.
  destruct (boundary_cases s b Hb) as [[Hm ->] | [[Hm ->] | [[Hm ->] | [Hm ->]]]];
    rewrite Hm.
  - rewrite tick_main_countdown by assumption.
    destruct (Z.leb_spec (Countdown.totalTime (countdown s) * 1000
                          - (currentTime s + delta)) 0); [lia | reflexivity].
  - rewrite tick_main_tabata by assumption. cbv zeta.
    rewrite round_past_iff by now apply cycleMs_pos.
    destruct (Z.leb_spec (rounds (tabata s) * cycleMs s) (currentTime s + delta));
      [lia | reflexivity].
  - rewrite tick_main_emom by assumption. cbv zeta.
    rewrite round_past_iff by lia.
    destruct (Z.leb_spec (totalMinutes (emom s) * 60000) (currentTime s + delta));
      [lia | reflexivity].
  - rewrite tick_main_amrap by assumption.
    destruct (Z.geb_spec (currentTime s + delta) (Amrap.totalTime (amrap s) * 1000));
      [lia | reflexivity].
Qed.

(** What a Tick leaves alone. *)
Lemma tick_frame (s : TimerState) (delta : Z) :
  let r := timerReducer s (TICK delta) in
  mode r = mode s /\ countdown r = countdown s /\ tabata r = tabata s /\
  emom r = emom s /\ amrap r = amrap s /\ countdownIntro r = countdownIntro s /\
  (isInCountdownIntro s = false -> isInCountdownIntro r = false).
Proof.
  cbv zeta. run_blocks.
  destruct (isInCountdownIntro s) eqn:Hi.
  - destruct (_ <=? 0); cbn; repeat split; discriminate.
  - destruct (mode s) eqn:Hm; cbn;
      repeat match goal with
             | |- context [if ?c then _ else _] => destruct c; cbn
             end; repeat split; solve [assumption | reflexivity | intros _; exact Hi].
Qed.

Lemma boundary_after_tick (s : TimerState) (delta : Z) :
  boundary (timerReducer s (TICK delta)) = boundary s.
Proof.
  destruct (tick_frame s delta) as (Hm & Hc & Ht & He & Ha & _).
  unfold boundary, cycleMs. now rewrite Hm, Hc, Ht, He, Ha.
Qed.

(** Two Ticks with deltas >= 0 leave the state that one Tick with their sum
    leaves. *)
Lemma tick_after_tick (s : TimerState) (d1 d2 : Z) :
  isInCountdownIntro s = false -> positiveTabata (tabata s) ->
  0 <= d1 -> 0 <= d2 ->
  timerReducer (timerReducer s (TICK d1)) (TICK d2) = timerReducer s (TICK (d1 + d2)).
Proof.
  intros Hi Hpos H1 H2.
  destruct (tick_frame s d1) as (Hm1 & _ & Ht1 & _ & _ & _ & Hi1).
  specialize (Hi1 Hi).
  destruct (boundary s) as [b |] eqn:Hb.
  - assert (Hb1 : boundary (timerReducer s (TICK d1)) = Some b)
      by now rewrite boundary_after_tick.
    destruct (Z_le_gt_dec b (currentTime s + d1)) as [Hreach | Hbelow].
    + rewrite (tick_reaches_boundary _ d2 b); try assumption;
        [| now rewrite Ht1 |].
      * rewrite Hm1, Ht1.
        rewrite (tick_reaches_boundary s (d1 + d2) b) by (try assumption; lia).
        rewrite (tick_reaches_boundary s d1 b) by assumption.
        destruct s; cbn in *. destruct mode0; reflexivity.
      * rewrite (tick_reaches_boundary s d1 b) by assumption.
        destruct (mode s); cbn; lia.
    + assert (Hct1 : currentTime (timerReducer s (TICK d1)) = currentTime s + d1).
      { rewrite (tick_below_boundary s d1 b) by (try assumption; lia).
        cbv zeta. now destruct (mode s). }
      destruct (Z_le_gt_dec b (currentTime s + (d1 + d2))) as [Hreach2 | Hbelow2].
      * rewrite (tick_reaches_boundary _ d2 b); try assumption;
          [| now rewrite Ht1 | rewrite Hct1; lia].
        rewrite (tick_reaches_boundary s (d1 + d2) b) by assumption.
        rewrite Hm1, Ht1.
        rewrite (tick_below_boundary s d1 b) by (try assumption; lia).
        cbv zeta. destruct s; cbn in *. destruct mode0; reflexivity.
      * rewrite (tick_below_boundary _ d2 b); try assumption;
          [| now rewrite Ht1 | rewrite Hct1; lia].
        rewrite (tick_below_boundary s (d1 + d2) b) by (try assumption; lia).
        cbv zeta. rewrite Hm1, Hct1. unfold cycleMs. rewrite Ht1.
        rewrite (tick_below_boundary s d1 b) by (try assumption; lia).
        cbv zeta. rewrite Z.add_assoc.
        destruct s; cbn in *. destruct mode0; reflexivity.
  - assert (Hb1 : boundary (timerReducer s (TICK d1)) = None)
      by now rewrite boundary_after_tick.
    rewrite (tick_main_unbounded _ d2) by assumption.
    rewrite !(tick_main_unbounded s) by assumption.
    destruct s; cbn. now rewrite Z.add_assoc.
Qed.

(** X1.  Outside the intro, with positive Tabata settings, any non-empty
    series of Ticks with deltas >= 0 leaves the state of a single Tick with
    the sum of the deltas. *)
Theorem ticks_sum (deltas : list Z) :
  Forall (fun d => 0 <= d) deltas ->
  forall s d,
    isInCountdownIntro s = false -> positiveTabata (tabata s) -> 0 <= d ->
    dispatchAll s (ticks (d :: deltas)) = timerReducer s (TICK (d + sumDeltas deltas)).
Proof.
  induction 1 as [| d' deltas Hd' Hall IH]; intros s d Hi Hpos Hd.
  - cbn. now rewrite Z.add_0_r.
  - change (dispatchAll s (ticks (d :: d' :: deltas)))
      with (dispatchAll (timerReducer s (TICK d)) (ticks (d' :: deltas))).
    destruct (tick_frame s d) as (_ & _ & Ht & _ & _ & _ & Hi').
    rewrite IH; [| now apply Hi' | now rewrite Ht | assumption].
    pose proof (sumDeltas_nonneg deltas Hall).
    rewrite tick_after_tick by (try assumption; lia).
    reflexivity.
Qed.

Lemma ticks_sum_witness :
  dispatchAll initialState (START :: ticks [5000; 10; 7000; 335]) =
  timerReducer (timerReducer initialState START) (TICK 12345) /\
  currentTime (dispatchAll initialState (START :: ticks [5000; 10; 7000; 335])) = 12345.
Proof.
  split; [| reflexivity].
  apply (ticks_sum [10; 7000; 335]);
    [repeat constructor; lia | reflexivity | repeat split; cbn; lia | lia].
Defined.

(** ** The interval callback *)

Lemma last_cons_default (l : list Z) :
  forall x d d', last (x :: l) d = last (x :: l) d'.
Proof.
  induction l as [| y l IH]; intros x d d'; [reflexivity | apply (IH y)].
Qed.

Lemma clockAdvances_last (readings : list Z) :
  forall from, clockAdvances from readings -> from <= last readings from.
Proof.
  induction readings as [| now rest IH]; intros from H.
  - cbn. lia.
  - destruct H as [Hnow Hrest]. specialize (IH now Hrest).
    destruct rest as [| next rest]; [cbn; lia |].
    change (last (now :: next :: rest) from) with (last (next :: rest) from).
    rewrite (last_cons_default rest next from now). lia.
Qed.

(** X2.  With a clock that does not run backwards, outside the intro and
    with positive Tabata settings, the wake-ups of the interval leave the
    state of one Tick with the time between the reading the interval started
    from and the last reading, whenever and however often it fired; the last
    reading is what [lastTickRef] keeps. *)
Theorem wakeUps_measure_elapsed (readings : list Z) :
  forall started s,
    readings <> [] -> clockAdvances started readings ->
    isInCountdownIntro s = false -> positiveTabata (tabata s) ->
    wakeUps readings (started, s) =
      (last readings started,
       timerReducer s (TICK (last readings started - started))).
Proof.
  induction readings as [| now rest IH]; intros started s Hne Hclock Hi Hpos.
  - now elim Hne.
  - destruct Hclock as [Hnow Hrest].
    change (wakeUps (now :: rest) (started, s))
      with (wakeUps rest (now, timerReducer s (TICK (now - started)))).
    destruct rest as [| next rest]; [reflexivity |].
    destruct (tick_frame s (now - started)) as (_ & _ & Ht & _ & _ & _ & Hi').
    rewrite IH; [| discriminate | assumption | now apply Hi' | now rewrite Ht].
    pose proof (clockAdvances_last (next :: rest) now Hrest) as Hlast.
    change (last (now :: next :: rest) started) with (last (next :: rest) started).
    rewrite (last_cons_default rest next started now).
    rewrite tick_after_tick by (try assumption; lia).
    do 2 f_equal. f_equal. lia.
Qed.

Lemma wakeUps_measure_elapsed_witness :
  let s := timerReducer initialState START in
  wakeUps [1000012; 1000021; 1000021; 1000250] (1000000, s) =
    (1000250, timerReducer s (TICK 250)).
Proof.
  cbv zeta.
  apply (wakeUps_measure_elapsed [1000012; 1000021; 1000021; 1000250]);
    [discriminate | cbn; lia | reflexivity | repeat split; cbn; lia].
Defined.

(** ** The boundary is never passed *)

(** X3.  Outside the intro, with positive Tabata settings, in a mode with a
    boundary, after a Tick with any delta the elapsed time is at most the
    boundary, and a timer still running is strictly before it. *)
Theorem tick_never_passes_boundary (s : TimerState) (delta b : Z) :
  isInCountdownIntro s = false -> positiveTabata (tabata s) ->
  boundary s = Some b ->
  let r := timerReducer s (TICK delta) in
  currentTime r <= b /\ (isRunning r = true -> currentTime r < b).
Proof.
  intros Hi Hpos Hb r. subst r.
  destruct (Z_le_gt_dec b (currentTime s + delta)) as [Hreach | Hbelow].
  - rewrite (tick_reaches_boundary s delta b) by assumption.
    destruct (mode s); cbn; split; try lia; discriminate.
  - rewrite (tick_below_boundary s delta b) by (try assumption; lia).
    cbv zeta. destruct (mode s); cbn; lia.
Qed.

Lemma tick_never_passes_boundary_witness :
  let s := dispatchAll initialState
             [SET_COUNTDOWN_INTRO 0; SET_MODE Mode.amrap; START; TICK 599000] in
  currentTime (timerReducer s (TICK 5000)) <= 600000.
Proof.
  cbv zeta.
  apply (tick_never_passes_boundary _ 5000 600000);
    [reflexivity | repeat split; cbn; lia | reflexivity].
Defined.

(** ** RESET, STOP and [toggle] *)

Lemma reset_after_timing_action (s : TimerState) (a : TimerAction) :
  isTimingAction a = true ->
  timerReducer (timerReducer s a) RESET = timerReducer s RESET.
Proof.
  destruct a; try discriminate; intros _.
  - unfold timerReducer. destruct (_ && (currentTime s =? 0)); reflexivity.
  - reflexivity.
  - reflexivity.
  - run_blocks. destruct (isInCountdownIntro s).
    + destruct (_ <=? 0); reflexivity.
    + destruct (mode s); cbn;
        repeat match goal with
               | |- context [if ?c then _ else _] => destruct c; cbn
               end; reflexivity.
Qed.

(** X4.  RESET after any series of START, STOP, RESET and TICK gives the
    state RESET gives at once: the run leaves no trace.  On the defaults the
    hook starts with, that state is [initialState] itself. *)
Theorem reset_forgets_the_run (actions : list TimerAction) :
  forallb isTimingAction actions = true ->
  (forall s, timerReducer (dispatchAll s actions) RESET = timerReducer s RESET) /\
  timerReducer (dispatchAll initialState actions) RESET = initialState.
Proof.
  intros Hall.
  assert (H : forall s,
             timerReducer (dispatchAll s actions) RESET = timerReducer s RESET).
  { induction actions as [| a actions IH]; intros s; [reflexivity |].
    cbn in Hall. apply andb_true_iff in Hall as [Ha Hrest].
    cbn [dispatchAll fold_left]. fold (dispatchAll (timerReducer s a) actions).
    rewrite IH by assumption. now apply reset_after_timing_action. }
  split; [exact H | now rewrite H].
Qed.

Lemma reset_forgets_the_run_witness :
  timerReducer
    (dispatchAll initialState [START; TICK 1234; STOP; START; TICK 99; TICK (-5)])
    RESET = initialState.
Proof.
  apply (proj2 (reset_forgets_the_run
                  [START; TICK 1234; STOP; START; TICK 99; TICK (-5)] eq_refl)).
Defined.

(** X5.  [toggle] flips isRunning and keeps the elapsed time.  Pausing a
    running timer and resuming it gives back the very state, unless START
    finds its intro condition: at elapsed time zero, in a mode with an
    intro, resuming begins the intro. *)
Theorem toggle_pauses_and_resumes (s : TimerState) :
  isRunning (toggle s) = negb (isRunning s) /\
  currentTime (toggle s) = currentTime s /\
  (isRunning s = true -> ~ introCondition s -> toggle (toggle s) = s) /\
  (isRunning s = true -> introCondition s ->
   toggle (toggle s) =
     s <| isInCountdownIntro := true |>
       <| introTimeRemaining := countdownIntro s * 1000 |>).
Proof.
  unfold toggle. split; [| split; [| split]].
  - destruct (isRunning s); [reflexivity |].
    unfold timerReducer. now destruct (_ && (currentTime s =? 0)).
  - destruct (isRunning s); [reflexivity |].
    unfold timerReducer. now destruct (_ && (currentTime s =? 0)).
  - intros Hr Hn. rewrite Hr. cbn [timerReducer isRunning with_isRunning].
    fold (timerReducer (s <| isRunning := false |>) START).
    rewrite start_resumes by exact Hn.
    destruct s; cbn in *. now subst.
  - intros Hr Hc. rewrite Hr. cbn [timerReducer isRunning with_isRunning].
    fold (timerReducer (s <| isRunning := false |>) START).
    rewrite start_enters_intro by exact Hc.
    destruct s; cbn in *. now subst.
Qed.

Lemma toggle_pauses_and_resumes_witness :
  let s := dispatchAll initialState [START; TICK 4321] in
  toggle (toggle s) = s.
Proof.
  cbv zeta.
  apply (proj1 (proj2 (proj2 (toggle_pauses_and_resumes _))));
    [reflexivity | ].
  intros (_ & H & _). now apply H.
Defined.

(** ** The reducer before the intro *)

Lemma intro_off_step (s : TimerState) (a : TimerAction) :
  introOff s -> isLegacyAction a = true ->
  timerReducer s a = timerReducerLegacy s a /\ introOff (timerReducer s a).
Proof.
  unfold introOff. intros (Hci & Hi & Hrem) Ha.
  assert (Hgt : (countdownIntro s >? 0) = false).
  { destruct (Z.gtb_spec (countdownIntro s) 0); [lia | reflexivity]. }
  destruct a; try discriminate; cbn [timerReducer timerReducerLegacy].
  - split; [| now cbn]. destruct s; cbn in *. now subst.
  - rewrite Hgt. cbn. auto.
  - cbn. auto.
  - split; [| now cbn]. destruct s; cbn in *. now subst.
  - rewrite Hi. split; [reflexivity |].
    unfold countdownBlock, tabataBlock, emomBlock, amrapBlock.
    destruct (mode s); cbn;
      repeat match goal with
             | |- context [if ?c then _ else _] => destruct c; cbn
             end; auto.
  - cbn. auto.
  - cbn. auto.
  - cbn. auto.
  - cbn. auto.
Qed.

(** X6.  With the intro switched off (countdownIntro <= 0, no intro pending)
    the reducer does on every action of the first reducer what the first
    reducer does, and the intro stays off; so the two agree along every run
    of such actions. *)
Theorem intro_off_is_legacy :
  (forall s a,
      introOff s -> isLegacyAction a = true ->
      timerReducer s a = timerReducerLegacy s a /\ introOff (timerReducer s a)) /\
  (forall actions s,
      introOff s -> forallb isLegacyAction actions = true ->
      dispatchAll s actions = fold_left timerReducerLegacy actions s).
Proof.
  split; [exact intro_off_step |].
  induction actions as [| a actions IH]; intros s Hoff Hall; [reflexivity |].
  cbn in Hall. apply andb_true_iff in Hall as [Ha Hrest].
  destruct (intro_off_step s a Hoff Ha) as [Hstep Hoff'].
  cbn [dispatchAll fold_left]. fold (dispatchAll (timerReducer s a) actions).
  rewrite IH by assumption. now rewrite Hstep.
Qed.

Lemma intro_off_is_legacy_witness :
  let s := timerReducer initialState (SET_COUNTDOWN_INTRO 0) in
  let actions :=
    [SET_MODE Mode.tabata; START; TICK 25000; STOP; START; TICK 300000] in
  dispatchAll s actions = fold_left timerReducerLegacy actions s.
Proof.
  cbv zeta.
  apply (proj2 intro_off_is_legacy); [repeat split; cbn; lia | reflexivity].
Defined.

(** ** The time display *)

(** Numbers below 100, padded to two places, are two digits; checked on
    each of them. *)
Lemma two_digits_table :
  forallb
    (fun n =>
       match padStart 2 "0" (toString n) with
       | String a (String b EmptyString) => isDigit a && isDigit b
       | _ => false
       end)
    (map Z.of_nat (seq 0 100)) = true.
Proof. vm_compute. reflexivity. Qed.

Lemma below_100_listed (n : Z) :
  0 <= n < 100 -> In n (map Z.of_nat (seq 0 100)).
Proof.
  intros H. apply in_map_iff. exists (Z.to_nat n).
  split; [lia | apply in_seq; lia].
Qed.

Lemma two_digits (n : Z) :
  0 <= n < 100 ->
  exists a b,
    padStart 2 "0" (toString n) = String a (String b EmptyString) /\
    isDigit a = true /\ isDigit b = true.
Proof.
  intros H. pose proof two_digits_table as T.
  rewrite forallb_forall in T. specialize (T n (below_100_listed n H)).
  destruct (padStart 2 "0" (toString n)) as [| a [| b [| ]]]; try discriminate.
  apply andb_true_iff in T. now exists a, b.
Qed.

(** Different numbers below 100 are padded to different strings. *)
Lemma two_digits_distinct_table :
  forallb
    (fun n =>
       forallb
         (fun m =>
            implb (String.eqb (padStart 2 "0" (toString n))
                              (padStart 2 "0" (toString m)))
                  (n =? m))
         (map Z.of_nat (seq 0 100)))
    (map Z.of_nat (seq 0 100)) = true.
Proof. vm_compute. reflexivity. Qed.

Lemma two_digits_inj (n m : Z) :
  0 <= n < 100 -> 0 <= m < 100 ->
  padStart 2 "0" (toString n) = padStart 2 "0" (toString m) -> n = m.
Proof.
  intros Hn Hm E. pose proof two_digits_distinct_table as T.
  rewrite forallb_forall in T. specialize (T n (below_100_listed n Hn)).
  rewrite forallb_forall in T. specialize (T m (below_100_listed m Hm)).
  rewrite E, String.eqb_refl in T. now apply Z.eqb_eq.
Qed.

(** The three numbers [formatTime] prints, for a time under 100 minutes. *)
Lemma formatTime_fields (ms : Z) :
  0 <= ms < 6000000 ->
  0 <= ms / 1000 / 60 < 100 /\ 0 <= Z.rem (ms / 1000) 60 < 60 /\
  0 <= Z.rem ms 1000 / 10 < 100.
Proof.
  intros H. rewrite !Z.rem_mod_nonneg by (try lia; apply Z.div_pos; lia).
  repeat split; Z.to_euclidean_division_equations; lia.
Qed.

(** X7.  For a time from 0 up to 100 minutes [formatTime] gives two digits,
    a colon, two digits, and with [showMillis] a point and two more digits;
    so the background of the LCD is "88:88", or "88:88.88", and lies under
    the value place by place. *)
Theorem formatTime_background (ms : Z) :
  0 <= ms < 6000000 ->
  getBackgroundPattern (formatTime ms false) = "88:88"%string /\
  getBackgroundPattern (formatTime ms true) = "88:88.88"%string /\
  String.length (formatTime ms false) = 5%nat /\
  String.length (formatTime ms true) = 8%nat.
Proof.
  intros H. destruct (formatTime_fields ms H) as (Hmin & Hsec & Hcs).
  unfold formatTime. cbv zeta.
  destruct (two_digits _ Hmin) as (a & b & -> & Ha & Hb).
  destruct (two_digits (Z.rem (ms / 1000) 60)) as (c & d & -> & Hc & Hd); [lia |].
  destruct (two_digits _ Hcs) as (e & f & -> & He & Hf).
  cbn. rewrite Ha, Hb, Hc, Hd, He, Hf. repeat split.
Qed.

Lemma formatTime_background_witness :
  getBackgroundPattern (formatTime 754321 true) = "88:88.88"%string /\
  formatTime 754321 true = "12:34.32"%string.
Proof.
  split; [| reflexivity].
  apply (formatTime_background 754321); lia.
Defined.

(** X8.  The background pattern has the length of the value, and it is its
    own background. *)
Theorem background_lines_up (value : string) :
  String.length (getBackgroundPattern value) = String.length value /\
  getBackgroundPattern (getBackgroundPattern value) = getBackgroundPattern value.
Proof.
  induction value as [| c rest [IHlen IHidem]]; [now split |].
  cbn. rewrite IHlen, IHidem. split; [reflexivity |].
  destruct (isDigit c) eqn:E; [reflexivity | now rewrite E].
Qed.

(** X9.  Under 100 minutes the display tells the whole seconds apart and
    nothing finer: two times read the same exactly when they have the same
    number of whole seconds; with [showMillis], of whole hundredths. *)
Theorem formatTime_reads_seconds (a b : Z) :
  0 <= a < 6000000 -> 0 <= b < 6000000 ->
  (formatTime a false = formatTime b false <-> a / 1000 = b / 1000) /\
  (formatTime a true = formatTime b true <-> a / 10 = b / 10).
Proof.
  intros Ha Hb.
  destruct (formatTime_fields a Ha) as (Hma & Hsa & Hca).
  destruct (formatTime_fields b Hb) as (Hmb & Hsb & Hcb).
  assert (Hsa' : 0 <= Z.rem (a / 1000) 60 < 100) by lia.
  assert (Hsb' : 0 <= Z.rem (b / 1000) 60 < 100) by lia.
  assert (Hfields :
            forall showMillis,
              formatTime a showMillis = formatTime b showMillis ->
              a / 1000 / 60 = b / 1000 / 60 /\
              Z.rem (a / 1000) 60 = Z.rem (b / 1000) 60 /\
              (showMillis = true -> Z.rem a 1000 / 10 = Z.rem b 1000 / 10)).
  { intros showMillis E. unfold formatTime in E. cbv zeta in E.
    pose proof (two_digits_inj _ _ Hma Hmb) as Im.
    pose proof (two_digits_inj _ _ Hsa' Hsb') as Is.
    pose proof (two_digits_inj _ _ Hca Hcb) as Ic.
    destruct (two_digits _ Hma) as (a1 & a2 & Ea & _).
    destruct (two_digits _ Hmb) as (b1 & b2 & Eb & _).
    destruct (two_digits _ Hsa') as (a3 & a4 & Ea' & _).
    destruct (two_digits _ Hsb') as (b3 & b4 & Eb' & _).
    destruct (two_digits _ Hca) as (a5 & a6 & Ea'' & _).
    destruct (two_digits _ Hcb) as (b5 & b6 & Eb'' & _).
    rewrite Ea, Eb, Ea', Eb', Ea'', Eb'' in *.
    destruct showMillis; cbn in E; inversion E; subst;
      (split; [now apply Im | split; [now apply Is |]]);
      [intros _; now apply Ic | discriminate].
  }
  split; split.
  - intros E. destruct (Hfields false E) as (Hm & Hs & _).
    rewrite !Z.rem_mod_nonneg in Hs by (try lia; apply Z.div_pos; lia).
    Z.to_euclidean_division_equations; lia.
  - intros E. unfold formatTime. cbv zeta. now rewrite E.
  - intros E. destruct (Hfields true E) as (Hm & Hs & Hc).
    specialize (Hc eq_refl).
    rewrite !Z.rem_mod_nonneg in Hs, Hc by (try lia; apply Z.div_pos; lia).
    Z.to_euclidean_division_equations; lia.
  - intros E. unfold formatTime. cbv zeta.
    assert (a / 1000 = b / 1000) as -> by (Z.to_euclidean_division_equations; lia).
    assert (Z.rem a 1000 / 10 = Z.rem b 1000 / 10) as ->.
    { rewrite !Z.rem_mod_nonneg by lia. Z.to_euclidean_division_equations; lia. }
    reflexivity.
Qed.

Lemma formatTime_reads_seconds_witness :
  formatTime 61000 false = formatTime 61999 false /\
  formatTime 61000 false = "01:01"%string.
Proof.
  split; [| reflexivity].
  apply (proj1 (formatTime_reads_seconds 61000 61999 ltac:(lia) ltac:(lia))).
  reflexivity.
Defined.

(** ** What the displays show after a Tick *)

Lemma formatTime_last_second (ms : Z) :
  0 <= ms < 1000 -> formatTime ms false = "00:00"%string.
Proof.
  intros H. unfold formatTime. cbv zeta.
  assert (ms / 1000 = 0) as -> by (apply Z.div_small; lia).
  reflexivity.
Qed.

(** X10.  After a Tick in countdown mode (in AMRAP mode likewise) the
    display is [formatTime] of the time left to the boundary, never of a
    negative time; it reads "00:00" once the boundary is reached, and
    already during the last second before it. *)
Theorem countdown_display_after_tick (s : TimerState) (delta : Z) :
  isInCountdownIntro s = false ->
  let r := timerReducer s (TICK delta) in
  let e := currentTime s + delta in
  (mode s = Mode.countdown ->
   let total := Countdown.totalTime (countdown s) * 1000 in
   formatCountdown r = formatTime (Z.max 0 (total - e)) false /\
   (total - 1000 < e -> formatCountdown r = "00:00"%string)) /\
  (mode s = Mode.amrap ->
   let total := Amrap.totalTime (amrap s) * 1000 in
   formatAmrap r = formatTime (Z.max 0 (total - e)) false /\
   (total - 1000 < e -> formatAmrap r = "00:00"%string)).
Proof.
  intros Hi r e. subst r e. split; intros Hm total; subst total.
  - assert (E : formatCountdown (timerReducer s (TICK delta)) =
                formatTime
                  (Z.max 0 (Countdown.totalTime (countdown s) * 1000
                            - (currentTime s + delta))) false).
    { rewrite tick_main_countdown by assumption. unfold formatCountdown.
      destruct (Z.leb_spec (Countdown.totalTime (countdown s) * 1000
                            - (currentTime s + delta)) 0);
        cbn -[formatTime Z.mul Z.sub Z.max]; f_equal; lia. }
    split; [exact E |]. intros Hlast. rewrite E.
    apply formatTime_last_second. lia.
  - assert (E : formatAmrap (timerReducer s (TICK delta)) =
                formatTime
                  (Z.max 0 (Amrap.totalTime (amrap s) * 1000
                            - (currentTime s + delta))) false).
    { rewrite tick_main_amrap by assumption. unfold formatAmrap.
      destruct (Z.geb_spec (currentTime s + delta)
                           (Amrap.totalTime (amrap s) * 1000));
        cbn -[formatTime Z.mul Z.sub Z.max]; f_equal; lia. }
    split; [exact E |]. intros Hlast. rewrite E.
    apply formatTime_last_second. lia.
Qed.

Lemma countdown_display_after_tick_witness :
  let s := dispatchAll initialState
             [SET_COUNTDOWN_INTRO 0; SET_MODE Mode.countdown; START;
              TICK 179000] in
  isRunning (timerReducer s (TICK 500)) = true /\
  formatCountdown (timerReducer s (TICK 500)) = "00:00"%string.
Proof.
  cbv zeta. split; [reflexivity |].
  apply (proj1 (countdown_display_after_tick
                  (dispatchAll initialState
                     [SET_COUNTDOWN_INTRO 0; SET_MODE Mode.countdown; START;
                      TICK 179000]) 500 eq_refl) eq_refl).
  cbn. lia.
Defined.

(** X11.  After a Tick in Tabata mode (positive settings, elapsed time and
    delta >= 0): before the boundary the display counts down what is left of
    the current phase, above zero and at most the length of the phase, under
    the label of that phase; at the boundary it shows a whole cycle, not
    zero, under REST, in round rounds/rounds. *)
Theorem tabata_display_after_tick (s : TimerState) (delta : Z) :
  mode s = Mode.tabata -> isInCountdownIntro s = false ->
  positiveTabata (tabata s) -> 0 <= currentTime s -> 0 <= delta ->
  let r := formatTabata (timerReducer s (TICK delta)) in
  let e := currentTime s + delta in
  let inCycle := e mod cycleMs s in
  let work := workTime (tabata s) * 1000 in
  let rest := restTime (tabata s) * 1000 in
  (e < rounds (tabata s) * cycleMs s -> inCycle < work ->
   TabataDisplay.time r = formatTime (work - inCycle) false /\
   0 < work - inCycle <= work /\ TabataDisplay.phase r = "WORK"%string) /\
  (e < rounds (tabata s) * cycleMs s -> work <= inCycle ->
   TabataDisplay.time r = formatTime (cycleMs s - inCycle) false /\
   0 < cycleMs s - inCycle <= rest /\ TabataDisplay.phase r = "REST"%string) /\
  (rounds (tabata s) * cycleMs s <= e ->
   TabataDisplay.time r = formatTime (cycleMs s) false /\
   TabataDisplay.phase r = "REST"%string /\
   TabataDisplay.round r =
     (toString (rounds (tabata s)) ++ "/" ++ toString (rounds (tabata s)))%string).
Proof.
  intros Hm Hi Hpos Hct Hd r e inCycle work rest.
  subst r e inCycle work rest.
  pose proof (cycleMs_pos s Hpos) as Hc.
  assert (Hb : boundary s = Some (rounds (tabata s) * cycleMs s))
    by (unfold boundary; now rewrite Hm).
  pose proof (Z.mod_pos_bound (currentTime s + delta) (cycleMs s) Hc) as Hmod.
  assert (Hrem : Z.rem (currentTime s + delta) (cycleMs s) =
                 (currentTime s + delta) mod cycleMs s)
    by (apply Z.rem_mod_nonneg; lia).
  split; [| split].
  - intros Hbelow Hwork.
    rewrite (tick_below_boundary s delta _ Hi Hpos Hb Hbelow). cbv zeta.
    rewrite Hm. unfold formatTabata.
    cbn -[formatTime Z.mul Z.sub Z.max Z.rem Z.modulo Z.add]. fold (cycleMs s). rewrite Hrem.
    destruct (Z.ltb_spec ((currentTime s + delta) mod cycleMs s)
                         (workTime (tabata s) * 1000)); [| lia].
    rewrite Z.max_r by lia. repeat split; lia.
  - intros Hbelow Hrest.
    rewrite (tick_below_boundary s delta _ Hi Hpos Hb Hbelow). cbv zeta.
    rewrite Hm. unfold formatTabata.
    cbn -[formatTime Z.mul Z.sub Z.max Z.rem Z.modulo Z.add]. fold (cycleMs s). rewrite Hrem.
    destruct (Z.ltb_spec ((currentTime s + delta) mod cycleMs s)
                         (workTime (tabata s) * 1000)); [lia |].
    rewrite Z.max_r by lia. unfold cycleMs in *. repeat split; lia.
  - intros Hreach.
    rewrite (tick_reaches_boundary s delta _ Hi Hpos Hb Hreach).
    rewrite Hm. unfold formatTabata.
    cbn -[formatTime Z.mul Z.sub Z.max Z.rem Z.modulo Z.add]. fold (cycleMs s).
    rewrite Z.rem_mul, Z.sub_0_r, Z.max_r by lia.
    repeat split.
Qed.

Lemma tabata_display_after_tick_witness :
  let s := dispatchAll initialState
             [SET_COUNTDOWN_INTRO 0; SET_MODE Mode.tabata; START;
              TICK 239000] in
  let r := formatTabata (timerReducer s (TICK 1000)) in
  TabataDisplay.time r = "00:30"%string /\
  TabataDisplay.phase r = "REST"%string /\
  TabataDisplay.round r = "8/8"%string.
Proof.
  cbv zeta.
  apply (proj2 (proj2 (tabata_display_after_tick
                         (dispatchAll initialState
                            [SET_COUNTDOWN_INTRO 0; SET_MODE Mode.tabata;
                             START; TICK 239000]) 1000 eq_refl eq_refl
                         ltac:(repeat split; cbn; lia) ltac:(cbn; lia)
                         ltac:(lia)))).
  cbn. lia.
Defined.

(** X12.  After a Tick in EMOM mode (elapsed time and delta >= 0): before
    the boundary the display counts down what is left of the current minute,
    above zero and at most 60000 ms; at the boundary it shows "01:00", not
    zero, in minute totalMinutes/totalMinutes. *)
Theorem emom_display_after_tick (s : TimerState) (delta : Z) :
  mode s = Mode.emom -> isInCountdownIntro s = false ->
  0 <= currentTime s -> 0 <= delta ->
  let r := formatEmom (timerReducer s (TICK delta)) in
  let e := currentTime s + delta in
  (e < totalMinutes (emom s) * 60000 ->
   EmomDisplay.time r = formatTime (60000 - e mod 60000) false /\
   0 < 60000 - e mod 60000 <= 60000) /\
  (totalMinutes (emom s) * 60000 <= e ->
   EmomDisplay.time r = "01:00"%string /\
   EmomDisplay.minute r =
     (toString (totalMinutes (emom s)) ++ "/" ++
      toString (totalMinutes (emom s)))%string).
Proof.
  intros Hm Hi Hct Hd r e. subst r e.
  rewrite tick_main_emom by assumption. cbv zeta.
  rewrite round_past_iff by lia.
  split.
  - intros Hbelow.
    destruct (Z.leb_spec (totalMinutes (emom s) * 60000) (currentTime s + delta));
      [lia |].
    unfold formatEmom.
    cbn -[formatTime Z.mul Z.sub Z.max Z.rem Z.modulo Z.add].
    rewrite Z.rem_mod_nonneg by lia.
    pose proof (Z.mod_pos_bound (currentTime s + delta) 60000 ltac:(lia)).
    rewrite Z.max_r by lia. split; [reflexivity | lia].
  - intros Hreach.
    destruct (Z.leb_spec (totalMinutes (emom s) * 60000) (currentTime s + delta));
      [| lia].
    unfold formatEmom.
    cbn -[formatTime Z.mul Z.sub Z.max Z.rem Z.modulo Z.add].
    rewrite Z.rem_mul by lia. split; reflexivity.
Qed.

Lemma emom_display_after_tick_witness :
  let s := dispatchAll initialState
             [SET_COUNTDOWN_INTRO 0; SET_MODE Mode.emom; START; TICK 599000] in
  let r := formatEmom (timerReducer s (TICK 1000)) in
  EmomDisplay.time r = "01:00"%string /\ EmomDisplay.minute r = "10/10"%string.
Proof.
  cbv zeta.
  apply (proj2 (emom_display_after_tick
                  (dispatchAll initialState
                     [SET_COUNTDOWN_INTRO 0; SET_MODE Mode.emom; START;
                      TICK 599000]) 1000 eq_refl eq_refl
                  ltac:(cbn; lia) ltac:(lia))).
  cbn. lia.
Defined.

(** ** The settings pickers *)

Lemma set_same_settings (s : TimerState) :
  s <| countdown := {| Countdown.totalTime := Countdown.totalTime (countdown s) |} |> = s /\
  s <| tabata := {| workTime := workTime (tabata s);
                    restTime := restTime (tabata s);
                    rounds := rounds (tabata s) |} |> = s /\
  s <| emom := {| intervalTime := intervalTime (emom s);
                  totalMinutes := totalMinutes (emom s) |} |> = s /\
  s <| amrap := {| Amrap.totalTime := Amrap.totalTime (amrap s) |} |> = s /\
  s <| countdownIntro := countdownIntro s |> = s.
Proof.
  destruct s as [m r ct [cd] [w re ro] [iv tm] [am] cr wp cm ci ii ir].
  repeat split.
Qed.

(** X13.  A picker button keeps every setting within the range of its
    picker.  At the bottom of the range the minus button leaves the state as
    it is, and so does the plus button at the top. *)
Theorem picker_stays_in_range (s : TimerState) (p : Picker)
    (button : NumberPicker.Button) :
  settingsInRange s ->
  settingsInRange (pressPicker s p button) /\
  (NumberPicker.value (pickerProps s p) = NumberPicker.min (pickerProps s p) ->
   pressPicker s p NumberPicker.Minus = s) /\
  (NumberPicker.value (pickerProps s p) = NumberPicker.max (pickerProps s p) ->
   pressPicker s p NumberPicker.Plus = s).
Proof.
  unfold settingsInRange. intros H.
  destruct (set_same_settings s) as (Ecd & Etab & Eem & Eam & Eci).
  split; [| split].
  - destruct p, button; cbn; lia.
  - intros E. destruct p; cbn in E; unfold pressPicker; cbn;
      rewrite E; cbn; rewrite <- E; assumption.
  - intros E. destruct p; cbn in E; unfold pressPicker; cbn;
      rewrite E; cbn; rewrite <- E; assumption.
Qed.

Lemma picker_stays_in_range_witness :
  let s := dispatchAll initialState
             [SET_MODE Mode.tabata;
              SET_TABATA {| workTime := 5; restTime := 10; rounds := 8 |}] in
  pressPicker s Work NumberPicker.Minus = s /\
  workTime (tabata (pressPicker s Work NumberPicker.Plus)) = 10.
Proof.
  cbv zeta. split; [| reflexivity].
  apply (proj1 (proj2 (picker_stays_in_range
                         (dispatchAll initialState
                            [SET_MODE Mode.tabata;
                             SET_TABATA {| workTime := 5; restTime := 10;
                                           rounds := 8 |}])
                         Work NumberPicker.Minus
                         ltac:(unfold settingsInRange; cbn; lia)))).
  reflexivity.
Defined.

Lemma settingsInRange_step (s : TimerState) (e : ScreenEvent) :
  settingsInRange s -> settingsInRange (screenStep s e).
Proof.
  intros H. destruct e as [m | | | p button | delta]; cbn [screenStep].
  - exact H.
  - unfold toggle, timerReducer.
    destruct (isRunning s); [exact H |].
    destruct (_ && (currentTime s =? 0)); exact H.
  - exact H.
  - unfold settingsInRange in *. destruct p, button; cbn; lia.
  - destruct (tick_frame s delta) as (_ & Hc & Ht & He & Ha & Hci & _).
    unfold settingsInRange. now rewrite Hc, Ht, He, Ha, Hci.
Qed.

(** X14.  Whatever is done on the screen (modes chosen, main button and
    Reset pressed, picker buttons pressed) and whatever Ticks arrive, the
    settings stay within the ranges of the pickers.  So they stay positive,
    and the Tabata cycle the reducer divides by is never zero. *)
Theorem screen_keeps_settings_in_range (events : list ScreenEvent) :
  let s := screenRun initialState events in
  settingsInRange s /\ positiveSettings s /\ 0 < cycleMs s.
Proof.
  cbv zeta.
  assert (H : settingsInRange (screenRun initialState events)).
  { assert (Hinit : settingsInRange initialState)
      by (unfold settingsInRange; cbn; lia).
    revert Hinit. generalize initialState.
    induction events as [| e events IH]; intros s Hs; [exact Hs |].
    apply (IH (screenStep s e)), settingsInRange_step, Hs. }
  split; [exact H |].
  unfold settingsInRange in H. unfold positiveSettings, positiveTabata, cycleMs.
  lia.
Qed.

(** ** More on the reducer *)

Lemma introFlagMatches_step (s : TimerState) (a : TimerAction) :
  introFlagMatches s -> introFlagMatches (timerReducer s a).
Proof.
  unfold introFlagMatches. intros [Hon Hoff].
  destruct a as [m | | | | delta | c | t0 | e | am | secs];
    try (cbn; split; [assumption || discriminate | assumption || reflexivity]).
  - unfold timerReducer.
    destruct (_ && (currentTime s =? 0)) eqn:E; cbn; [| now split].
    apply andb_true_iff in E as [E _]. apply andb_true_iff in E as [E _].
    apply Z.gtb_lt in E. split; [lia | discriminate].
  - destruct (isInCountdownIntro s) eqn:Hi.
    + rewrite tick_intro by assumption.
      destruct (Z.leb_spec (introTimeRemaining s - delta) 0); cbn;
        rewrite ?Hi; split; try discriminate; auto; lia.
    + destruct (tick_frame s delta) as (_ & _ & _ & _ & _ & _ & Hi').
      specialize (Hi' Hi). rewrite Hi'.
      split; [discriminate | intros _].
      specialize (Hoff eq_refl). run_blocks. rewrite Hi.
      destruct (mode s); cbn;
        repeat match goal with
               | |- context [if ?c then _ else _] => destruct c; cbn
               end; assumption.
Qed.

(** X15.  In every state reachable from [initialState], by any actions
    whatever, the intro flag is set exactly when intro time remains:
    isInCountdownIntro holds iff introTimeRemaining > 0, and
    introTimeRemaining is 0 otherwise. *)
Theorem intro_flag_matches_time (s : TimerState) :
  reachable s ->
  (isInCountdownIntro s = true <-> 0 < introTimeRemaining s) /\
  (isInCountdownIntro s = false <-> introTimeRemaining s = 0).
Proof.
  intros [actions ->].
  assert (H : introFlagMatches (dispatchAll initialState actions)).
  { assert (Hinit : introFlagMatches initialState)
      by (split; [discriminate | reflexivity]).
    revert Hinit. generalize initialState.
    induction actions as [| a actions IH]; intros s Hs; [exact Hs |].
    apply (IH (timerReducer s a)), introFlagMatches_step, Hs. }
  destruct H as [Hon Hoff].
  destruct (isInCountdownIntro (dispatchAll initialState actions)).
  - specialize (Hon eq_refl). repeat split; intros; try lia; discriminate.
  - specialize (Hoff eq_refl). repeat split; intros; try lia; discriminate.
Qed.

Lemma intro_flag_matches_time_witness :
  let s := dispatchAll initialState
             [SET_MODE Mode.amrap; START; TICK 9999; TICK 1] in
  isInCountdownIntro s = false /\ introTimeRemaining s = 0.
Proof.
  cbv zeta. split; [reflexivity |].
  apply (proj2 (intro_flag_matches_time _ ltac:(eexists; reflexivity))).
  reflexivity.
Defined.

(** X16.  A timer that has completed cannot be run on: after the Tick that
    reached the boundary (positive settings), START followed by any Tick
    with a delta >= 0 gives back the completed state, stopped at the
    boundary. *)
Theorem completed_timer_stops_again (s : TimerState) (delta b d : Z) :
  isInCountdownIntro s = false -> positiveSettings s ->
  boundary s = Some b -> b <= currentTime s + delta -> 0 <= d ->
  let s' := timerReducer s (TICK delta) in
  isRunning (timerReducer s' START) = true /\
  timerReducer (timerReducer s' START) (TICK d) = s'.
Proof.
  intros Hi Hset Hb Hreach Hd s'. subst s'.
  assert (Hbpos : 0 < b).
  { destruct Hset as (Hcd & (Hw & Hr & Hro) & Hem & Ham).
    destruct (boundary_cases s b Hb) as [[_ ->] | [[_ ->] | [[_ ->] | [_ ->]]]];
      unfold cycleMs; nia. }
  destruct Hset as (_ & Hpos & _ & _).
  rewrite (tick_reaches_boundary s delta b Hi Hpos Hb Hreach).
  assert (Hstart :
            forall c, currentTime c = b ->
                      timerReducer c START = c <| isRunning := true |>).
  { intros c Hc. apply start_resumes. unfold introCondition. lia. }
  destruct (boundary_cases s b Hb) as [[Hm Eb] | [[Hm Eb] | [[Hm Eb] | [Hm Eb]]]];
    rewrite Hm; rewrite Hstart by reflexivity; (split; [reflexivity |]);
    (rewrite (tick_reaches_boundary _ d b);
     [ destruct s; cbn in *; subst; reflexivity
     | destruct s; assumption
     | destruct s; assumption
     | destruct s; cbn in *; unfold boundary, cycleMs in *; cbn in *; subst;
       reflexivity
     | destruct s; cbn; lia ]).
Qed.

Lemma completed_timer_stops_again_witness :
  let s := dispatchAll initialState
             [SET_COUNTDOWN_INTRO 0; SET_MODE Mode.emom; START; TICK 599990] in
  let s' := timerReducer s (TICK 20) in
  isRunning s' = false /\
  timerReducer (timerReducer s' START) (TICK 10) = s'.
Proof.
  cbv zeta. split; [reflexivity |].
  apply (completed_timer_stops_again
           (dispatchAll initialState
              [SET_COUNTDOWN_INTRO 0; SET_MODE Mode.emom; START; TICK 599990])
           20 600000 10);
    [reflexivity | repeat split; cbn; lia | reflexivity | cbn; lia | lia].
Defined.

(** X17.  From one Tick to the next (deltas >= 0, outside the intro,
    positive Tabata settings) neither the elapsed time nor the Tabata round
    nor the EMOM minute goes back. *)
Theorem progress_never_goes_back (s : TimerState) (d1 d2 : Z) :
  isInCountdownIntro s = false -> positiveTabata (tabata s) ->
  0 <= d1 -> 0 <= d2 ->
  let r1 := timerReducer s (TICK d1) in
  let r2 := timerReducer r1 (TICK d2) in
  currentTime r1 <= currentTime r2 /\
  currentRound r1 <= currentRound r2 /\
  currentMinute r1 <= currentMinute r2.
Proof.
  intros Hi Hpos H1 H2 r1 r2. subst r1 r2.
  rewrite tick_after_tick by assumption.
  pose proof (cycleMs_pos s Hpos) as Hc.
  destruct (boundary s) as [b |] eqn:Hb.
  - destruct (Z_le_gt_dec b (currentTime s + d1)) as [Hr1 | Hb1].
    + rewrite (tick_reaches_boundary s d1 b) by assumption.
      rewrite (tick_reaches_boundary s (d1 + d2) b) by (try assumption; lia).
      destruct (mode s); cbn; lia.
    + rewrite (tick_below_boundary s d1 b) by (try assumption; lia).
      assert (Hdiv : forall c, 0 < c ->
                 (currentTime s + d1) / c <= (currentTime s + (d1 + d2)) / c)
        by (intros c Hcpos; apply Z.div_le_mono; lia).
      destruct (Z_le_gt_dec b (currentTime s + (d1 + d2))) as [Hr2 | Hb2].
      * rewrite (tick_reaches_boundary s (d1 + d2) b) by assumption.
        destruct (boundary_cases s b Hb)
          as [[Hm Eb] | [[Hm Eb] | [[Hm Eb] | [Hm Eb]]]];
          rewrite Hm; cbn; repeat split; try lia.
        -- assert ((currentTime s + d1) / cycleMs s < rounds (tabata s))
             by (apply Z.div_lt_upper_bound; lia).
           lia.
        -- assert ((currentTime s + d1) / 60000 < totalMinutes (emom s))
             by (apply Z.div_lt_upper_bound; lia).
           lia.
      * rewrite (tick_below_boundary s (d1 + d2) b) by (try assumption; lia).
        pose proof (Hdiv (cycleMs s) Hc). pose proof (Hdiv 60000 ltac:(lia)).
        destruct (mode s); cbn; lia.
  - rewrite !(tick_main_unbounded s) by assumption. cbn. lia.
Qed.

Lemma progress_never_goes_back_witness :
  let s := dispatchAll initialState
             [SET_COUNTDOWN_INTRO 0; SET_MODE Mode.tabata; START] in
  currentRound (timerReducer s (TICK 29999)) <=
  currentRound (timerReducer (timerReducer s (TICK 29999)) (TICK 1)).
Proof.
  cbv zeta.
  apply (progress_never_goes_back
           (dispatchAll initialState
              [SET_COUNTDOWN_INTRO 0; SET_MODE Mode.tabata; START])
           29999 1);
    [reflexivity | repeat split; cbn; lia | lia | lia].
Defined.
